(** * FLamby, Fed-Heart-Disease: the dataset loader and its federated view

    A shallow embedding of [flamby/datasets/fed_heart_disease/dataset.py]
    (classes [HeartDiseaseRaw] and [FedHeartDisease]) and the properties of
    its specification.

    Conventions of the embedding:
    - a Python exception is a value of [exn]; a computation that may raise
      has type [result A];
    - the global NumPy generator is threaded explicitly as a state;
    - a CSV field is numeric text (identified with the rational it denotes),
      the text [?], or empty; floating-point rounding is not modelled, the
      numbers are exact rationals;
    - a pandas frame is its list of column labels and its list of rows. *)

From Stdlib Require Import ZArith QArith Ascii String.
From stdpp Require Import base list strings gmap sorting.

Local Open Scope string_scope.
Local Open Scope list_scope.
Local Open Scope Z_scope.

(** ** Exceptions *)

Inductive exn : Set :=
  | IndexError
  | KeyError
  | AssertionError
  | EmptyDataError
  | ParserError.

Inductive result (A : Type) : Type :=
  | Ok (a : A)
  | Raise (e : exn).
Arguments Ok {A} a.
Arguments Raise {A} e.

Definition bind {A B : Type} (m : result A) (k : A → result B) : result B :=
  match m with
  | Ok a => k a
  | Raise e => Raise e
  end.

Notation "'let!' x ':=' m 'in' k" := (bind m (fun x => k))
  (at level 10, x pattern, m at level 100, k at level 200).

(** [assert cond] *)
Definition assert (cond : bool) : result unit :=
  if cond then Ok tt else Raise AssertionError.

(** ** Python sequences *)

(** [l[idx]] for a Python list (and for the first axis of a tensor): a
    negative index counts from the end, anything outside
    [-len(l) <= idx < len(l)] raises [IndexError]. *)
Definition py_index {A : Type} (l : list A) (idx : Z) : result A :=
  let n := Z.of_nat (length l) in
  let i := if idx <? 0 then idx + n else idx in
  if (i <? 0) || (n <=? i) then Raise IndexError
  else match l !! Z.to_nat i with
       | Some x => Ok x
       | None => Raise IndexError
       end.

(** [s.split(".")] *)
Fixpoint split_dot (s : string) : list string :=
  match s with
  | EmptyString => [EmptyString]
  | String c s' =>
      if Ascii.eqb c "."%char then EmptyString :: split_dot s'
      else match split_dot s' with
           | h :: t => String c h :: t
           | [] => [String c EmptyString]
           end
  end.

(** ** Numbers, fields and frames *)

(** A field of a data file as [pd.read_csv] returns it. *)
Inductive cell : Type :=
  | Num (q : Q)
  | QMark
  | Empty.

(** A number or NaN ([None]). *)
Definition value : Type := option Q.

Definition Qltb (x y : Q) : bool := negb (Qle_bool y x).

Record DataFrame (A : Type) : Type := mkFrame {
  columns : list nat;
  data : list (list A)
}.
Arguments mkFrame {A} columns data.
Arguments columns {A} d.
Arguments data {A} d.

Definition shape0 {A : Type} (df : DataFrame A) : nat := length (data df).

(** [pd.read_csv(file, header=None)] on the lines of a file, each line
    already cut into fields: no line at all is an [EmptyDataError]; the first
    line fixes the number of columns, which are labelled [0, 1, ...]; a longer
    line is a [ParserError], a shorter one is completed with NaN. *)
Definition read_csv (lines : list (list cell)) : result (DataFrame cell) :=
  match lines with
  | [] => Raise EmptyDataError
  | first :: _ =>
      let w := length first in
      if forallb (λ l, Nat.leb (length l) w) lines
      then Ok (mkFrame (seq 0 w)
                 ((λ l, l ++ replicate (w - length l) Empty) <$> lines))
      else Raise ParserError
  end.

(** [df.replace("?", np.NaN)] *)
Definition replace_qmark (c : cell) : value :=
  match c with
  | Num q => Some q
  | QMark => None
  | Empty => None
  end.

Definition replace (df : DataFrame cell) : DataFrame value :=
  mkFrame (columns df) ((λ row : list cell, replace_qmark <$> row) <$> data df).

(** The fields of [row] whose column label satisfies [keep]. *)
Definition select_columns {A : Type} (keep : nat → bool)
    (cols : list nat) (row : list A) : list A :=
  snd <$> List.filter (λ p, keep (fst p)) (zip cols row).

Definition mem_nat (x : nat) (l : list nat) : bool :=
  existsb (Nat.eqb x) l.

(** [df.drop(labels, axis=1)]: every label must be a column. *)
Definition df_drop {A : Type} (labels : list nat) (df : DataFrame A)
    : result (DataFrame A) :=
  if forallb (λ l, mem_nat l (columns df)) labels
  then Ok (mkFrame (List.filter (λ c, negb (mem_nat c labels)) (columns df))
             (select_columns (λ c, negb (mem_nat c labels)) (columns df)
                <$> data df))
  else Raise KeyError.

Definition isna (v : value) : bool :=
  match v with
  | Some _ => false
  | None => true
  end.

(** [df.dropna(axis=0)] *)
Definition dropna (df : DataFrame value) : DataFrame value :=
  mkFrame (columns df)
    (List.filter (λ row, forallb (λ v, negb (isna v)) row) (data df)).

(** [df.iloc[:, :-1]] *)
Definition iloc_but_last (df : DataFrame value) : DataFrame value :=
  mkFrame (removelast (columns df))
    ((λ row : list value, removelast row) <$> data df).

(** [df.iloc[:, -1]]: the last column, as a series. *)
Definition iloc_last (df : DataFrame value) : result (list value) :=
  match columns df with
  | [] => Raise IndexError
  | _ :: _ => Ok ((λ row, default None (last row)) <$> data df)
  end.

(** Position of a column label. *)
Fixpoint get_loc (c : nat) (cols : list nat) : option nat :=
  match cols with
  | [] => None
  | c' :: cols' => if Nat.eqb c c' then Some 0%nat else S <$> get_loc c cols'
  end.

(** The field of [row] under label [c]; NaN when the frame has no such
    column. *)
Definition at_label (cols : list nat) (row : list value) (c : nat) : value :=
  match get_loc c cols with
  | Some j => default None (row !! j)
  | None => None
  end.

Definition reindex (cols : list nat) (df : DataFrame value)
    : list (list value) :=
  (λ row, at_label (columns df) row <$> cols) <$> data df.

(** [pd.concat((a, b), ignore_index=True)] on two frames: the columns are
    those of [a] followed by the new ones of [b], the rows of [a] come first,
    and a row has NaN under a column its frame did not have. *)
Definition pd_concat (a b : DataFrame value) : DataFrame value :=
  let cols :=
    columns a ++ List.filter (λ c, negb (mem_nat c (columns a))) (columns b) in
  mkFrame cols (reindex cols a ++ reindex cols b).

(** *** One-hot encoding *)

(** Insertion of a number in an increasing list without repetition. *)
Fixpoint insert_sorted (q : Q) (l : list Q) : list Q :=
  match l with
  | [] => [q]
  | x :: l' =>
      match Qcompare q x with
      | Lt => q :: l
      | Eq => l
      | Gt => x :: insert_sorted q l'
      end
  end.

(** The distinct numbers of a column, in increasing order. *)
Definition categories (col : list value) : list Q :=
  foldr (λ v acc, match v with
                  | Some q => insert_sorted q acc
                  | None => acc
                  end) [] col.

Definition indicator (v : value) (c : Q) : value :=
  match v with
  | Some q => if Qeq_bool q c then Some 1%Q else Some 0%Q
  | None => Some 0%Q
  end.

(** [pd.get_dummies(df, columns=cols, drop_first=True)], as the rows of the
    resulting frame: the columns that are not encoded, then for each encoded
    column one indicator per category but the first. Every label of [cols]
    must be a column. *)
Definition get_dummies (df : DataFrame value) (cols : list nat)
    : result (list (list value)) :=
  if forallb (λ c, mem_nat c (columns df)) cols
  then
    let cats (c : nat) : list Q :=
      tail (categories ((λ row, at_label (columns df) row c) <$> data df)) in
    Ok ((λ row,
           select_columns (λ c, negb (mem_nat c cols)) (columns df) row
           ++ flat_map (λ c, indicator (at_label (columns df) row c) <$> cats c)
                cols) <$> data df)
  else Raise KeyError.

(** ** Tensors *)

Inductive dtype : Set :=
  | float16 | bfloat16 | float32 | float64
  | uint8 | int8 | int16 | int32 | int64
  | bool_.

Definition is_floating_point (d : dtype) : bool :=
  match d with
  | float16 | bfloat16 | float32 | float64 => true
  | _ => false
  end.

Record Tensor : Type := mkTensor {
  t_dtype : dtype;
  t_elems : list value
}.

(** Conversion of one element to a dtype: exact for the floating kinds
    (rounding is not modelled), truncation toward zero for the integer kinds
    (wrap-around out of range is not modelled), non-zero test for booleans. *)
Definition cast (d : dtype) (v : value) : value :=
  if is_floating_point d then v
  else match v with
       | None => None
       | Some q =>
           match d with
           | bool_ => Some (if Qeq_bool q 0 then 0%Q else 1%Q)
           | _ => Some (inject_Z (Z.quot (Qnum q) (Zpos (Qden q))))
           end
       end.

(** [t.to(d)] *)
Definition to (d : dtype) (t : Tensor) : Tensor :=
  mkTensor d (cast d <$> t_elems t).

(** ** The platform: generator, configuration and files *)

(** A [*.data] file of the dataset directory: its base name and its lines,
    each cut into fields. *)
Record data_file : Type := mkFile {
  basename : string;
  lines : list (list cell)
}.

(** What the loader takes from outside this file: NumPy's global generator
    ([np.random.seed] installs a state that depends on the seed alone,
    [np.random.rand] returns a number and the next state), the configuration
    resolver [flamby.utils.check_dataset_from_config] (the dataset path for a
    dataset name and a debug flag, or an exception) and the files that
    [glob("*.data")] finds under a directory, in the order it yields them. *)
Record Platform : Type := mkPlatform {
  rng_state : Type;
  np_random_seed : Z → rng_state;
  np_random_rand : rng_state → Q * rng_state;
  check_dataset_from_config : string → bool → result string;
  glob_data : string → list data_file
}.

(** ** [HeartDiseaseRaw] *)

Record HeartDiseaseRaw : Type := mkRaw {
  data_dir : string;
  X_dtype : dtype;
  y_dtype : dtype;
  debug : bool;
  features : list Tensor;
  labels : list Tensor;
  centers : list Z;
  sets : list string
}.

Definition centers_number : gmap string Z :=
  <["cleveland" := 0]> (<["hungarian" := 1]> (<["switzerland" := 2]>
    (<["va" := 3]> ∅))).

(** [d[k]] on a dictionary *)
Definition dict_get (d : gmap string Z) (k : string) : result Z :=
  match d !! k with
  | Some v => Ok v
  | None => Raise KeyError
  end.

Definition train_fraction : Q := 66 # 100.

(** [labels.where(labels == 0, 1)] on one entry: an entry equal to 0 is
    kept, any other one (NaN included) becomes 1. *)
Definition where_zero_else_one (v : value) : value :=
  match v with
  | Some q => if Qeq_bool q 0 then v else Some 1%Q
  | None => Some 1%Q
  end.

(** [torch.from_numpy(a)] for an array of dtype [d] *)
Definition from_numpy (d : dtype) (a : list value) : Tensor :=
  mkTensor d a.

Fixpoint mapM {A B : Type} (f : A → result B) (l : list A)
    : result (list B) :=
  match l with
  | [] => Ok []
  | x :: l' =>
      let! y := f x in
      let! ys := mapM f l' in
      Ok (y :: ys)
  end.

Section Loader.

Context (P : Platform).

(** [for _ in range(nb): if np.random.rand() < self.train_fraction: ...] *)
Fixpoint draw_sets (nb : nat) (g : rng_state P) (sets : list string)
    : list string * rng_state P :=
  match nb with
  | O => (sets, g)
  | S nb' =>
      let '(u, g') := np_random_rand P g in
      draw_sets nb' g'
        (sets ++ [if Qltb u train_fraction then "train" else "test"])
  end.

(** The attributes the loop over the files updates, and the generator. *)
Record loading : Type := mkLoading {
  ld_features : DataFrame value;
  ld_labels : list value;
  ld_centers : list Z;
  ld_sets : list string;
  ld_rng : rng_state P
}.

(** The body of [for center_data_file in self.data_dir.glob("*.data")].
    [self.labels] is a frame with the single column 0, kept as the list of
    its entries. *)
Definition load_center (st : loading) (center_data_file : data_file)
    : result loading :=
  let! center_name := py_index (split_dot (basename center_data_file)) 1 in
  let! df := read_csv (lines center_data_file) in
  let! df := df_drop [10; 11; 12]%nat (replace df) in
  let df := dropna df in
  let center_X := iloc_but_last df in
  let! center_y := iloc_last df in
  let features := pd_concat (ld_features st) center_X in
  let labels := ld_labels st ++ center_y in
  let! c := dict_get centers_number center_name in
  let centers := ld_centers st ++ replicate (shape0 center_X) c in
  let nb := shape0 center_X in
  let '(sets, g) := draw_sets nb (ld_rng st) (ld_sets st) in
  Ok (mkLoading features labels centers sets g).

Fixpoint load_centers (st : loading) (files : list data_file)
    : result loading :=
  match files with
  | [] => Ok st
  | f :: files' =>
      let! st' := load_center st f in
      load_centers st' files'
  end.

(** [HeartDiseaseRaw.__init__]; [g] is the state of the global generator
    when the constructor is called, the second component of the result is
    its state when the constructor returns. [self.labels] becomes a tensor
    with one row per record, kept as the list of its rows; [float64] stands
    for the dtype of the array of labels, which the conversion replaces. *)
Definition HeartDiseaseRaw_init (g : rng_state P)
    (X_dtype y_dtype : dtype) (debug : bool)
    : result (HeartDiseaseRaw * rng_state P) :=
  let! dataset_path := check_dataset_from_config P "fed_heart_disease" debug in
  let g := np_random_seed P 8 in
  let! st := load_centers (mkLoading (mkFrame [] []) [] [] [] g)
               (glob_data P dataset_path) in
  let! encoded := get_dummies (ld_features st) [2; 6]%nat in
  let features :=
    (λ row, to X_dtype (from_numpy float32 row)) <$> encoded in
  let labels :=
    (λ v, to X_dtype (from_numpy float64 [where_zero_else_one v]))
      <$> ld_labels st in
  Ok (mkRaw dataset_path X_dtype y_dtype debug
        features labels (ld_centers st) (ld_sets st),
      ld_rng st).

End Loader.

Arguments ld_features {P} l.
Arguments ld_labels {P} l.
Arguments ld_centers {P} l.
Arguments ld_sets {P} l.
Arguments ld_rng {P} l.

(** [HeartDiseaseRaw.__len__] *)
Definition len (self : HeartDiseaseRaw) : Z :=
  Z.of_nat (length (labels self)).

(** [HeartDiseaseRaw.__getitem__] *)
Definition getitem (self : HeartDiseaseRaw) (idx : Z)
    : result (Tensor * Tensor) :=
  let! _ := assert (idx <? Z.of_nat (length (features self))) in
  let! X := py_index (features self) idx in
  let! y := py_index (labels self) idx in
  Ok (X, y).

(** ** [FedHeartDisease] *)

(** The attributes [FedHeartDisease] adds to those it inherits. *)
Record FedHeartDisease : Type := mkFed {
  base : HeartDiseaseRaw;
  chosen_centers : list Z;
  chosen_sets : list string
}.

Definition mem_Z (x : Z) (l : list Z) : bool := existsb (Z.eqb x) l.
Definition mem_string (x : string) (l : list string) : bool :=
  existsb (String.eqb x) l.

(** [(self.sets[idx] in chosen_sets) and (self.centers[idx] in chosen_centers)] *)
Definition to_select_at (self : HeartDiseaseRaw)
    (chosen_sets : list string) (chosen_centers : list Z) (idx : nat)
    : result bool :=
  let! s := py_index (sets self) (Z.of_nat idx) in
  if mem_string s chosen_sets
  then let! c := py_index (centers self) (Z.of_nat idx) in
       Ok (mem_Z c chosen_centers)
  else Ok false.

(** [[fp for idx, fp in enumerate(xs) if to_select[idx]]], the enumeration
    starting at [idx]. *)
Fixpoint select_from {A : Type} (to_select : list bool) (idx : nat)
    (xs : list A) : result (list A) :=
  match xs with
  | [] => Ok []
  | fp :: xs' =>
      let! b := py_index to_select (Z.of_nat idx) in
      let! rest := select_from to_select (S idx) xs' in
      Ok (if b then fp :: rest else rest)
  end.

(** [self] after the assignments to [self.features], [self.labels],
    [self.centers] and [self.sets]. *)
Definition with_rows (self : HeartDiseaseRaw) (features' labels' : list Tensor)
    (centers' : list Z) (sets' : list string) : HeartDiseaseRaw :=
  mkRaw (data_dir self) (X_dtype self) (y_dtype self) (debug self)
    features' labels' centers' sets'.

Section View.

Context (P : Platform).

(** [FedHeartDisease.__init__] *)
Definition FedHeartDisease_init (g : rng_state P)
    (center : Z) (train pooled : bool) (X_dtype y_dtype : dtype) (debug : bool)
    : result (FedHeartDisease * rng_state P) :=
  let! (self, g') := HeartDiseaseRaw_init P g X_dtype y_dtype debug in
  let! _ := assert (mem_Z center [0; 1; 2; 3]) in
  let chosen_centers := [center] in
  let chosen_centers := if pooled then [0; 1; 2; 3] else chosen_centers in
  let chosen_sets := if train then ["train"] else ["test"] in
  let! to_select :=
    mapM (to_select_at self chosen_sets chosen_centers)
      (seq 0 (length (features self))) in
  let! features' := select_from to_select 0 (features self) in
  let! sets' := select_from to_select 0 (sets self) in
  let! labels' := select_from to_select 0 (labels self) in
  let! centers' := select_from to_select 0 (centers self) in
  Ok (mkFed (with_rows self features' labels' centers' sets')
        chosen_centers chosen_sets,
      g').

End View.

(** ** A small platform to run the loader on *)

Module Demo.

(** A linear congruential generator standing for NumPy's. *)
Definition lcg_next (g : Z) : Z := (g * 1103515245 + 12345) mod 2147483648.

Definition lcg_rand (g : Z) : Q * Z :=
  let g' := lcg_next g in (g' # 2147483648, g').

(** A line of a data file: [Some z] is the number [z], [None] is [?]. *)
Definition line (fields : list (option Z)) : list cell :=
  (λ f, match f with
        | Some z => Num (inject_Z z)
        | None => QMark
        end) <$> fields.

Definition n (z : Z) : option Z := Some z.

Definition cleveland : data_file :=
  mkFile "processed.cleveland.data"
    [ line [n 63; n 1; n 1; n 145; n 233; n 1; n 2; n 150; n 0; n 2;
            n 3; n 0; n 6; n 0];
      line [n 67; n 1; n 4; n 160; n 286; n 0; n 2; n 108; n 1; n 1;
            n 2; n 3; n 3; n 2];
      line [n 37; n 1; n 3; n 130; n 250; n 0; n 0; n 187; n 0; n 3;
            n 3; None; n 3; n 0];
      line [n 41; n 0; n 2; None; n 204; n 0; n 2; n 172; n 0; n 1;
            n 1; n 0; n 3; n 0];
      line [n 56; n 1; n 2; n 120; n 236; n 0; n 0; n 178; n 0; n 0;
            n 1; n 0; n 3; n 3] ].

Definition hungarian : data_file :=
  mkFile "reprocessed.hungarian.data"
    [ line [n 40; n 1; n 2; n 140; n 289; n 0; n 0; n 172; n 0; n 0;
            None; None; None; n 0];
      line [n 49; n 0; n 3; n 160; n 180; n 0; n 0; n 156; n 0; n 1;
            n 2; None; None; n 1];
      line [n 37; n 1; n 2; n 130; n 283; n 0; n 1; n 98; n 0; n 0;
            None; None; None; None];
      line [n 48; n 0; n 4; n 138; n 214; n 0; n 0; n 108; n 1; n 1;
            n 2; None; None; n 3] ].

Definition switzerland : data_file :=
  mkFile "processed.switzerland.data"
    [ line [n 32; n 1; n 1; n 95; n 0; None; n 0; n 127; n 0; n 0;
            n 1; None; None; n 1];
      line [n 34; n 1; n 4; n 115; n 0; n 0; n 0; n 154; n 0; n 0;
            n 1; None; None; n 1] ].

Definition va : data_file :=
  mkFile "processed.va.data"
    [ line [n 63; n 1; n 4; n 140; n 260; n 0; n 1; n 112; n 1; n 3;
            n 2; None; None; n 2];
      line [n 44; n 1; n 4; n 130; n 209; n 0; n 1; n 127; n 0; n 0;
            None; None; None; n 0];
      line [n 60; n 1; n 4; n 132; n 218; n 0; n 1; n 140; n 1; n 1;
            n 3; None; None; n 2];
      line [n 55; n 1; n 4; n 142; n 228; n 0; n 1; n 149; n 1; n 2;
            n 1; None; None; n 1] ].

Definition platform : Platform :=
  mkPlatform Z (λ seed, seed) lcg_rand
    (λ name debug,
       if String.eqb name "fed_heart_disease"
       then Ok (if debug then "debug" else "full")
       else Raise KeyError)
    (λ path,
       if String.eqb path "full" then [cleveland; hungarian; switzerland; va]
       else if String.eqb path "debug" then [cleveland; hungarian]
       else []).

(** A directory with one file of one line, whose label is 3. *)
Definition one_record : Platform :=
  mkPlatform Z (λ seed, seed) lcg_rand
    (λ _ _, Ok "one")
    (λ _, [mkFile "processed.cleveland.data"
             [line [n 63; n 1; n 1; n 145; n 233; n 1; n 2; n 150; n 0; n 2;
                    n 3; n 0; n 6; n 3]]]).

(** A file whose name gives no center, and a directory that holds it
    between two readable files. *)
Definition notes : data_file :=
  mkFile "notes.data"
    [ line [n 63; n 1; n 4; n 140; n 260; n 0; n 1; n 112; n 1; n 3;
            n 2; None; None; n 2] ].

Definition broken : Platform :=
  mkPlatform Z (λ seed, seed) lcg_rand (λ _ _, Ok "broken")
    (λ _, [cleveland; notes; va]).

(** A directory without any data file. *)
Definition empty_directory : Platform :=
  mkPlatform Z (λ seed, seed) lcg_rand (λ _ _, Ok "nowhere") (λ _, []).

Definition empty_raw : HeartDiseaseRaw :=
  mkRaw EmptyString float32 float32 false [] [] [] [].

(** The raw dataset of the full directory and the generator after its
    construction. *)
Definition raw : HeartDiseaseRaw := Eval vm_compute in
  match HeartDiseaseRaw_init platform 0 float32 int64 false with
  | Ok (self, _) => self
  | Raise _ => empty_raw
  end.

Definition raw_rng : Z := Eval vm_compute in
  match HeartDiseaseRaw_init platform 0 float32 int64 false with
  | Ok (_, g) => g
  | Raise _ => 0
  end.

(** The test records of center 1. *)
Definition fed : FedHeartDisease := Eval vm_compute in
  match FedHeartDisease_init platform 0 1 false false float32 int64 false with
  | Ok (self, _) => self
  | Raise _ => mkFed empty_raw [] []
  end.

End Demo.

(** * Properties *)

(** ** Vocabulary of the statements *)

(** A record of a dataset: the entries of the four lists at one index. *)
Record row : Type := mkRow {
  r_features : Tensor;
  r_label : Tensor;
  r_center : Z;
  r_set : string
}.

Definition rows (self : HeartDiseaseRaw) : list row :=
  zip_with (λ Xy cs, mkRow (fst Xy) (snd Xy) (fst cs) (snd cs))
    (zip (features self) (labels self)) (zip (centers self) (sets self)).

(** The entries of [xs] at the positions where [mask] is true. *)
Fixpoint pick {A : Type} (mask : list bool) (xs : list A) : list A :=
  match mask, xs with
  | b :: mask', x :: xs' => if b then x :: pick mask' xs' else pick mask' xs'
  | _, _ => []
  end.

(** The split a record is given for a number drawn in [0, 1). *)
Definition bernoulli (u : Q) : string :=
  if Qltb u train_fraction then "train" else "test".

Definition split_name (train : bool) : string :=
  if train then "train" else "test".

Section Stream.

Context (P : Platform).

(** The first [nb] numbers the generator yields from state [g], and its
    state after them. *)
Fixpoint draws (nb : nat) (g : rng_state P) : list Q :=
  match nb with
  | O => []
  | S nb' => fst (np_random_rand P g) :: draws nb' (snd (np_random_rand P g))
  end.

Fixpoint advance (nb : nat) (g : rng_state P) : rng_state P :=
  match nb with
  | O => g
  | S nb' => advance nb' (snd (np_random_rand P g))
  end.

End Stream.

(** The datasets the two constructors build. *)
Definition constructed (self : HeartDiseaseRaw) : Prop :=
  (∃ (P : Platform) g X_dtype y_dtype debug g',
      HeartDiseaseRaw_init P g X_dtype y_dtype debug = Ok (self, g'))
  ∨ (∃ (P : Platform) g center train pooled X_dtype y_dtype debug fed g',
      FedHeartDisease_init P g center train pooled X_dtype y_dtype debug
        = Ok (fed, g')
      ∧ base fed = self).

(** A field that is present and is a number. *)
Definition is_number (c : option cell) : bool :=
  match c with
  | Some (Num _) => true
  | _ => false
  end.

(** What the specification counts for a data file: a line of the table is
    retained when, [?] being read as missing and the columns 10, 11 and 12
    being left out, none of its fields is missing. The table has the width of
    the file's first line. *)
Definition retained_line (width : nat) (l : list cell) : bool :=
  forallb (λ j, mem_nat j [10; 11; 12]%nat || is_number (l !! j))
    (seq 0 width).

Definition retained_count (f : data_file) : nat :=
  length (List.filter (retained_line (length (hd [] (lines f)))) (lines f)).

(** The number of lines the specification counts over the files. *)
Definition retained_total (files : list data_file) : nat :=
  sum_list_with retained_count files.

Section Loaded.

Context (P : Platform).

(** The attributes after the files [files] have been read, the generator
    having been in state [g0] before the first of them. *)
Record loaded (g0 : rng_state P) (files : list data_file) (st : loading P)
    : Prop := mkLoaded {
  loaded_features : shape0 (ld_features st) = retained_total files;
  loaded_labels : length (ld_labels st) = retained_total files;
  loaded_centers : length (ld_centers st) = retained_total files;
  loaded_range : Forall (λ c, c ∈ [0; 1; 2; 3]) (ld_centers st);
  loaded_sets : ld_sets st = bernoulli <$> draws P (retained_total files) g0;
  loaded_rng : ld_rng st = advance P (retained_total files) g0
}.

End Loaded.

Arguments loaded {P} g0 files st.

(** [labels[i]] after the binarisation and the conversion to [X_dtype]. *)
Definition stored_label (d : dtype) (v : value) : Tensor :=
  to d (from_numpy float64 [where_zero_else_one v]).

(** The condition of the mask, on a set and a center. *)
Definition selects (chosen_sets : list string) (chosen_centers : list Z)
    (s : string) (c : Z) : bool :=
  mem_string s chosen_sets && mem_Z c chosen_centers.

Definition view_mask (self : HeartDiseaseRaw)
    (chosen_sets : list string) (chosen_centers : list Z) : list bool :=
  zip_with (selects chosen_sets chosen_centers) (sets self) (centers self).

(** The dataset that the mask leaves. *)
Definition view (self : HeartDiseaseRaw)
    (chosen_sets : list string) (chosen_centers : list Z) : FedHeartDisease :=
  let mask := view_mask self chosen_sets chosen_centers in
  mkFed (with_rows self (pick mask (features self)) (pick mask (labels self))
           (pick mask (centers self)) (pick mask (sets self)))
    chosen_centers chosen_sets.

(** ** Vocabulary of the further properties *)

(** The center the loop gives to the records of a file:
    [self.centers_number[os.path.basename(file).split(".")[1]]]. *)
Definition center_of (f : data_file) : result Z :=
  let! center_name := py_index (split_dot (basename f)) 1 in
  dict_get centers_number center_name.

(** A string without a dot. *)
Fixpoint dot_free (s : string) : bool :=
  match s with
  | EmptyString => true
  | String c s' => negb (Ascii.eqb c "."%char) && dot_free s'
  end.

(** The width of the table of a file. *)
Definition width (f : data_file) : nat := length (hd [] (lines f)).

(** A file the body of the loop goes through without raising: its name
    gives a center, it has a line, no line is longer than the first one and
    there are at least 13 columns. *)
Definition readable (f : data_file) : Prop :=
  (∃ c, center_of f = Ok c)
  ∧ lines f ≠ []
  ∧ Forall (λ l, (length l ≤ width f)%nat) (lines f)
  ∧ (13 ≤ width f)%nat.

(** The label read on a line: its last field. *)
Definition label_of_line (l : list cell) : value :=
  match last l with
  | Some (Num q) => Some q
  | _ => None
  end.

(** The labels read in a file, on its retained lines, from top to bottom. *)
Definition file_labels (f : data_file) : list value :=
  label_of_line <$> List.filter (retained_line (width f)) (lines f).

(** The records a view asks for. *)
Definition wanted (center : Z) (train pooled : bool) (r : row) : bool :=
  String.eqb (r_set r) (split_name train)
  && (pooled || Z.eqb (r_center r) center).

(** A frame whose rows all have one field per column. *)
Definition rectangular {A : Type} (df : DataFrame A) : Prop :=
  Forall (λ r, length r = length (columns df)) (data df).





(** * Lemmas *)

(** ** The error monad and Python indexing *)

Lemma bind_Ok {A B : Type} (m : result A) (k : A → result B) (b : B) :
  bind m k = Ok b → ∃ a, m = Ok a ∧ k a = Ok b.
Proof. destruct m as [a|e]; simpl; [eauto | discriminate]. Qed.

Lemma bind_Raise {A B : Type} (m : result A) (k : A → result B) (e : exn) :
  bind m k = Raise e → m = Raise e ∨ ∃ a, m = Ok a ∧ k a = Raise e.
Proof. destruct m as [a|e']; simpl; [eauto | intros [= ->]; eauto]. Qed.


Lemma py_index_nonneg {A : Type} (l : list A) (idx : Z) :
  0 ≤ idx < Z.of_nat (length l) →
  ∃ x, py_index l idx = Ok x ∧ l !! Z.to_nat idx = Some x.
Proof.
  intros Hidx. unfold py_index.
  destruct (Z.ltb_spec idx 0) as [?|_]; [lia|].
  destruct (Z.ltb_spec idx 0) as [?|_]; [lia|].
  destruct (Z.leb_spec (Z.of_nat (length l)) idx) as [?|_]; [lia|]. simpl.
  destruct (lookup_lt_is_Some_2 l (Z.to_nat idx)) as [x Hx]; [lia|].
  rewrite Hx. eauto.
Qed.

Lemma py_index_negative {A : Type} (l : list A) (idx : Z) :
  - Z.of_nat (length l) ≤ idx < 0 →
  ∃ x, py_index l idx = Ok x
       ∧ l !! Z.to_nat (Z.of_nat (length l) + idx) = Some x.
Proof.
  intros Hidx. unfold py_index.
  destruct (Z.ltb_spec idx 0) as [_|?]; [|lia].
  destruct (Z.ltb_spec (idx + Z.of_nat (length l)) 0) as [?|_]; [lia|].
  destruct (Z.leb_spec (Z.of_nat (length l)) (idx + Z.of_nat (length l)))
    as [?|_]; [lia|]. simpl.
  replace (idx + Z.of_nat (length l)) with (Z.of_nat (length l) + idx) by lia.
  destruct (lookup_lt_is_Some_2 l (Z.to_nat (Z.of_nat (length l) + idx)))
    as [x Hx]; [lia|].
  rewrite Hx. eauto.
Qed.

Lemma py_index_lookup {A : Type} (l : list A) (i : nat) (x : A) :
  l !! i = Some x → py_index l (Z.of_nat i) = Ok x.
Proof.
  intros Hx. pose proof (lookup_lt_Some _ _ _ Hx) as Hlt.
  destruct (py_index_nonneg l (Z.of_nat i)) as (y & -> & Hy); [lia|].
  rewrite Nat2Z.id in Hy. congruence.
Qed.

Lemma mapM_Ok {A B : Type} (f : A → result B) (h : A → B) (l : list A) :
  (∀ x, x ∈ l → f x = Ok (h x)) → mapM f l = Ok (h <$> l).
Proof.
  induction l as [|x l IH]; intros Hf; simpl; [done|].
  rewrite Hf by left. simpl. rewrite IH; [done|].
  intros y Hy. apply Hf. by right.
Qed.

Lemma select_from_Ok {A : Type} (to_select : list bool) (idx : nat)
    (xs : list A) :
  (idx + length xs ≤ length to_select)%nat →
  select_from to_select idx xs = Ok (pick (drop idx to_select) xs).
Proof.
  revert idx. induction xs as [|x xs IH]; intros idx Hlen; simpl in *.
  - by destruct (drop idx to_select).
  - destruct (lookup_lt_is_Some_2 to_select idx) as [b Hb]; [lia|].
    rewrite (py_index_lookup _ _ _ Hb). simpl.
    rewrite IH by lia. simpl.
    rewrite (drop_S _ _ _ Hb). by destruct b.
Qed.

(** ** Frames: number of rows *)

Lemma filter_fmap {A B : Type} (p : B → bool) (f : A → B) (l : list A) :
  List.filter p (f <$> l) = f <$> List.filter (λ x, p (f x)) l.
Proof.
  induction l as [|x l IH]; [done|].
  rewrite fmap_cons. simpl. rewrite IH.
  by destruct (p (f x)).
Qed.

Lemma filter_ext_elem {A : Type} (p q : A → bool) (l : list A) :
  (∀ x, x ∈ l → p x = q x) → List.filter p l = List.filter q l.
Proof.
  induction l as [|x l IH]; intros Hpq; simpl; [done|].
  rewrite (Hpq x) by left. rewrite IH; [done|].
  intros y Hy. apply Hpq. by right.
Qed.

Lemma forallb_ext_elem {A : Type} (p q : A → bool) (l : list A) :
  (∀ x, x ∈ l → p x = q x) → forallb p l = forallb q l.
Proof.
  induction l as [|x l IH]; intros Hpq; simpl; [done|].
  rewrite (Hpq x) by left. rewrite IH; [done|].
  intros y Hy. apply Hpq. by right.
Qed.

Lemma shape0_pd_concat (a b : DataFrame value) :
  shape0 (pd_concat a b) = (shape0 a + shape0 b)%nat.
Proof.
  unfold shape0, pd_concat, reindex. simpl.
  by rewrite length_app, !length_fmap.
Qed.

Lemma shape0_iloc_but_last (df : DataFrame value) :
  shape0 (iloc_but_last df) = shape0 df.
Proof. unfold shape0, iloc_but_last. simpl. by rewrite length_fmap. Qed.

Lemma iloc_last_length (df : DataFrame value) (ys : list value) :
  iloc_last df = Ok ys → length ys = shape0 df.
Proof.
  unfold iloc_last, shape0. destruct (columns df); [discriminate|].
  intros [= <-]. by rewrite length_fmap.
Qed.

Lemma get_dummies_length (df : DataFrame value) (cols : list nat)
    (encoded : list (list value)) :
  get_dummies df cols = Ok encoded → length encoded = shape0 df.
Proof.
  unfold get_dummies, shape0.
  destruct (forallb _ cols); [|discriminate].
  intros [= <-]. by rewrite length_fmap.
Qed.

(** A padded line passes [dropna] after the replacement and the removal of
    the columns outside [keep] exactly when its kept fields are numbers. *)
Lemma kept_fields_number (keep : nat → bool) (w a : nat) (l : list cell) :
  (length l ≤ w)%nat →
  forallb (λ v, negb (isna v))
    (select_columns keep (seq a w)
       (replace_qmark <$> (l ++ replicate (w - length l) Empty)))
  = forallb (λ j, negb (keep j) || is_number (l !! (j - a)%nat)) (seq a w).
Proof.
  unfold select_columns.
  revert a l. induction w as [|w IH]; intros a l Hlen; [done|].
  unfold fmap in *.
  destruct l as [|c l]; simpl in *.
  - specialize (IH (S a) [] ltac:(simpl; lia)). simpl in IH.
    rewrite Nat.sub_0_r in IH.
    destruct (keep a); simpl.
    + done.
    + by rewrite IH.
  - specialize (IH (S a) l ltac:(lia)).
    rewrite Nat.sub_diag. simpl.
    assert (forallb (λ j, negb (keep j) || is_number ((c :: l) !! (j - a)%nat))
              (seq (S a) w)
            = forallb (λ j, negb (keep j) || is_number (l !! (j - S a)%nat))
                (seq (S a) w)) as ->.
    { apply forallb_ext_elem. intros j Hj.
      apply list_elem_of_In, in_seq in Hj.
      replace (j - a)%nat with (S (j - S a)) by lia. done. }
    destruct (keep a); simpl; rewrite IH; [|done].
    by destruct c.
Qed.

Lemma read_csv_Ok (ls : list (list cell)) (df : DataFrame cell) :
  read_csv ls = Ok df →
  let w := length (hd [] ls) in
  Forall (λ l, (length l ≤ w)%nat) ls
  ∧ columns df = seq 0 w
  ∧ data df = (λ l, l ++ replicate (w - length l) Empty) <$> ls.
Proof.
  unfold read_csv. destruct ls as [|first rest]; [discriminate|].
  destruct (forallb _ (first :: rest)) eqn:Hall; [|discriminate].
  intros [= <-]. simpl. split; [|done].
  apply Forall_forall. intros l Hl.
  apply list_elem_of_In in Hl.
  rewrite forallb_forall in Hall. specialize (Hall l Hl).
  by apply Nat.leb_le in Hall.
Qed.

(** The number of rows a file contributes is the number the specification
    counts. *)
Lemma dropna_count (f : data_file) (df : DataFrame cell)
    (df' : DataFrame value) :
  read_csv (lines f) = Ok df →
  df_drop [10; 11; 12]%nat (replace df) = Ok df' →
  shape0 (dropna df') = retained_count f.
Proof.
  intros Hread Hdrop. apply read_csv_Ok in Hread as (Hlen & Hcols & Hdata).
  unfold df_drop in Hdrop.
  destruct (forallb _ [10; 11; 12]%nat); [|discriminate].
  injection Hdrop as <-.
  unfold shape0, dropna, retained_count, replace. simpl.
  rewrite Hcols, Hdata.
  rewrite <- list_fmap_compose. rewrite <- list_fmap_compose.
  rewrite filter_fmap, length_fmap. f_equal.
  apply filter_ext_elem. intros l Hl. simpl.
  rewrite Forall_forall in Hlen. specialize (Hlen l Hl).
  rewrite (kept_fields_number _ _ 0%nat l Hlen).
  apply forallb_ext_elem. intros j _.
  rewrite Nat.sub_0_r. f_equal. apply negb_involutive.
Qed.

(** ** The loop over the files *)


Lemma retained_total_snoc (files : list data_file) (f : data_file) :
  retained_total (files ++ [f])
  = (retained_total files + retained_count f)%nat.
Proof.
  unfold retained_total. rewrite sum_list_with_app. simpl. lia.
Qed.

Lemma centers_number_range (name : string) (c : Z) :
  dict_get centers_number name = Ok c → c ∈ [0; 1; 2; 3].
Proof.
  unfold dict_get, centers_number.
  destruct (_ !! name) as [v|] eqn:Hv; [|discriminate].
  intros [= ->].
  repeat (apply lookup_insert_Some in Hv as [[_ <-]|[_ Hv]];
          [set_solver|]).
  by rewrite lookup_empty in Hv.
Qed.

Section LoaderFacts.

Context (P : Platform).

Lemma draw_sets_spec (nb : nat) (g : rng_state P) (sets : list string) :
  draw_sets P nb g sets
  = (sets ++ (bernoulli <$> draws P nb g), advance P nb g).
Proof.
  revert g sets. induction nb as [|nb IH]; intros g sets; simpl.
  - by rewrite app_nil_r.
  - destruct (np_random_rand P g) as [u g1]. simpl.
    rewrite IH. by rewrite <- app_assoc.
Qed.

Lemma draws_add (a b : nat) (g : rng_state P) :
  draws P (a + b) g = draws P a g ++ draws P b (advance P a g).
Proof.
  revert g. induction a as [|a IH]; intros g; simpl; [done|].
  by rewrite IH.
Qed.

Lemma advance_add (a b : nat) (g : rng_state P) :
  advance P (a + b) g = advance P b (advance P a g).
Proof. revert g. induction a as [|a IH]; intros g; simpl; [done|]. apply IH. Qed.

Lemma length_draws (nb : nat) (g : rng_state P) :
  length (draws P nb g) = nb.
Proof. revert g. induction nb as [|nb IH]; intros g; simpl; [done|]. by rewrite IH. Qed.


Lemma loaded_initial (g0 : rng_state P) :
  loaded g0 [] (mkLoading P (mkFrame [] []) [] [] [] g0).
Proof. by split. Qed.

Lemma load_center_loaded (g0 : rng_state P) (files : list data_file)
    (st st' : loading P) (f : data_file) :
  loaded g0 files st →
  load_center P st f = Ok st' →
  loaded g0 (files ++ [f]) st'.
Proof.
  intros [Hf Hl Hc Hr Hs Hg] Hload. unfold load_center in Hload.
  apply bind_Ok in Hload as (center_name & _ & Hload).
  apply bind_Ok in Hload as (df & Hread & Hload).
  apply bind_Ok in Hload as (df' & Hdrop & Hload).
  apply bind_Ok in Hload as (center_y & Hy & Hload).
  apply bind_Ok in Hload as (c & Hcenter & Hload).
  rewrite draw_sets_spec in Hload. injection Hload as <-.
  pose proof (dropna_count f df df' Hread Hdrop) as Hcount.
  apply iloc_last_length in Hy.
  apply centers_number_range in Hcenter.
  rewrite shape0_iloc_but_last, Hcount.
  split; rewrite ?retained_total_snoc; simpl.
  - rewrite shape0_pd_concat, shape0_iloc_but_last. lia.
  - rewrite length_app. lia.
  - rewrite length_app, length_replicate. lia.
  - apply Forall_app. split; [done|]. by apply Forall_replicate.
  - by rewrite Hs, Hg, draws_add, fmap_app.
  - by rewrite Hg, advance_add.
Qed.

Lemma load_centers_loaded (g0 : rng_state P) (done_ files : list data_file)
    (st st' : loading P) :
  loaded g0 done_ st →
  load_centers P st files = Ok st' →
  loaded g0 (done_ ++ files) st'.
Proof.
  revert done_ st. induction files as [|f files IH]; intros done_ st Hst Hload.
  - simpl in Hload. injection Hload as <-. by rewrite app_nil_r.
  - simpl in Hload. apply bind_Ok in Hload as (st1 & Hf & Hload).
    replace (done_ ++ f :: files) with ((done_ ++ [f]) ++ files)
      by by rewrite <- app_assoc.
    eapply IH; [|done]. by eapply load_center_loaded.
Qed.


(** What a successful [HeartDiseaseRaw.__init__] went through. *)
Lemma HeartDiseaseRaw_init_Ok (g : rng_state P) (X y : dtype) (dbg : bool)
    (self : HeartDiseaseRaw) (g' : rng_state P) :
  HeartDiseaseRaw_init P g X y dbg = Ok (self, g') →
  ∃ path st encoded,
    check_dataset_from_config P "fed_heart_disease" dbg = Ok path
    ∧ load_centers P (mkLoading P (mkFrame [] []) [] [] [] (np_random_seed P 8))
        (glob_data P path) = Ok st
    ∧ loaded (np_random_seed P 8) (glob_data P path) st
    ∧ get_dummies (ld_features st) [2; 6]%nat = Ok encoded
    ∧ self = mkRaw path X y dbg
               ((λ row, to X (from_numpy float32 row)) <$> encoded)
               (stored_label X <$> ld_labels st)
               (ld_centers st) (ld_sets st)
    ∧ g' = ld_rng st.
Proof.
  unfold HeartDiseaseRaw_init. intros H.
  apply bind_Ok in H as (path & Hpath & H).
  apply bind_Ok in H as (st & Hst & H).
  apply bind_Ok in H as (encoded & Henc & H).
  injection H as <- <-.
  exists path, st, encoded. repeat split; try done.
  all: by apply (load_centers_loaded _ [] _ _ _ (loaded_initial _) Hst).
Qed.

(** The four lists of a constructed raw dataset run in parallel. *)
Lemma HeartDiseaseRaw_init_lengths (g : rng_state P) (X y : dtype)
    (dbg : bool) (self : HeartDiseaseRaw) (g' : rng_state P) :
  HeartDiseaseRaw_init P g X y dbg = Ok (self, g') →
  length (labels self) = length (features self)
  ∧ length (centers self) = length (features self)
  ∧ length (sets self) = length (features self).
Proof.
  intros H. apply HeartDiseaseRaw_init_Ok in H
    as (path & st & encoded & _ & _ & [Hf Hl Hc _ Hs _] & Henc & -> & _).
  apply get_dummies_length in Henc. simpl.
  rewrite !length_fmap, Hs, length_fmap, length_draws. lia.
Qed.

End LoaderFacts.

(** ** Selection with a mask *)

Section Pick.

Context {A : Type}.
Implicit Types (mask : list bool) (xs : list A).

Lemma pick_nil_r mask : pick mask (@nil A) = [].
Proof. by destruct mask. Qed.

Lemma elem_of_pick mask xs (x : A) :
  x ∈ pick mask xs ↔ ∃ i, mask !! i = Some true ∧ xs !! i = Some x.
Proof.
  revert xs. induction mask as [|b mask IH]; intros xs.
  - simpl. split; [by intros ?%elem_of_nil | by intros (i & ? & _)].
  - destruct xs as [|y xs].
    { simpl. split; [by intros ?%elem_of_nil | by intros (i & _ & ?)]. }
    assert (x ∈ pick (b :: mask) (y :: xs)
            ↔ (b = true ∧ x = y) ∨ x ∈ pick mask xs) as ->.
    { simpl. destruct b; [rewrite elem_of_cons|]; intuition congruence. }
    rewrite IH. split.
    + intros [[-> ->]|(i & Hm & Hx)]; [by exists 0%nat | by exists (S i)].
    + intros ([|i] & Hm & Hx); simpl in *; [left | right; eauto].
      by simplify_eq.
Qed.

Lemma pick_sublist mask xs : pick mask xs `sublist_of` xs.
Proof.
  revert xs. induction mask as [|b mask IH]; intros [|x xs]; simpl;
    try apply sublist_nil_l.
  destruct b; [by apply sublist_skip | by apply sublist_cons].
Qed.

(** A mask that selects more yields a longer selection, in the same order. *)
Lemma pick_mono mask1 mask2 xs :
  Forall2 (λ b1 b2 : bool, b1 = true → b2 = true) mask1 mask2 →
  pick mask1 xs `sublist_of` pick mask2 xs.
Proof.
  intros Hle. revert xs.
  induction Hle as [|b1 b2 mask1 mask2 Hb _ IH]; intros [|x xs]; simpl;
    try apply sublist_nil_l.
  destruct b1, b2; try (by apply sublist_skip); try (by apply sublist_cons);
    [by specialize (Hb eq_refl) | done].
Qed.

(** The selected entries are those at the selected positions, in order. *)
Lemma pick_lookup mask xs (a k i : nat) :
  pick mask (seq a (length xs)) !! k = Some i →
  ∃ j, i = (a + j)%nat ∧ mask !! j = Some true ∧ pick mask xs !! k = xs !! j.
Proof.
  revert xs a k. induction mask as [|b mask IH]; intros [|x xs] a k; simpl;
    try done.
  destruct b.
  - destruct k as [|k]; simpl.
    + intros [= <-]. exists 0%nat. split_and!; [lia|done..].
    + intros (j & -> & Hm & Hj)%IH. exists (S j). split_and!; [lia|done..].
  - intros (j & -> & Hm & Hj)%IH. exists (S j). split_and!; [lia|done..].
Qed.

Lemma length_pick_seq mask xs (a : nat) :
  length (pick mask (seq a (length xs))) = length (pick mask xs).
Proof.
  revert xs a. induction mask as [|b mask IH]; intros [|x xs] a; simpl;
    try done.
  destruct b; simpl; by rewrite IH.
Qed.

End Pick.

Lemma pick_zip_with {A B C : Type} (f : A → B → C) (mask : list bool)
    (l : list A) (k : list B) :
  pick mask (zip_with f l k) = zip_with f (pick mask l) (pick mask k).
Proof.
  revert l k. induction mask as [|b mask IH]; intros [|x l] [|y k]; simpl;
    try done.
  - by destruct (if b then _ else _).
  - destruct b; simpl; by rewrite IH.
Qed.

Lemma pick_seq_sorted (mask : list bool) (a n : nat) :
  StronglySorted Nat.lt (pick mask (seq a n)).
Proof.
  assert (StronglySorted Nat.lt (seq a n)) as Hseq.
  { revert a. induction n as [|n IH]; intros a; simpl; constructor; [done|].
    apply Forall_forall. intros j Hj%elem_of_seq. unfold Nat.lt. lia. }
  assert (∀ l1 l2 : list nat, l1 `sublist_of` l2 →
            StronglySorted Nat.lt l2 → StronglySorted Nat.lt l1) as Hsub.
  { intros l1 l2 Hl. induction Hl as [|x l1 l2 Hl IH|x l1 l2 Hl IH];
      intros Hs; [done| |].
    - apply StronglySorted_inv in Hs as [Hs Hx].
      constructor; [by apply IH|].
      eapply Forall_forall. intros y Hy.
      rewrite Forall_forall in Hx. apply Hx.
      by eapply elem_of_sublist.
    - apply StronglySorted_inv in Hs as [Hs _]. by apply IH. }
  eapply Hsub; [apply pick_sublist | done].
Qed.

(** ** The federated view *)




Lemma mem_Z_elem_of (x : Z) (l : list Z) : mem_Z x l = true ↔ x ∈ l.
Proof.
  unfold mem_Z. rewrite existsb_exists. split.
  - intros (y & Hy & ->%Z.eqb_eq). by apply list_elem_of_In.
  - intros Hx. exists x. split; [by apply list_elem_of_In | apply Z.eqb_refl].
Qed.

Lemma mem_string_elem_of (x : string) (l : list string) :
  mem_string x l = true ↔ x ∈ l.
Proof.
  unfold mem_string. rewrite existsb_exists. split.
  - intros (y & Hy & ->%String.eqb_eq). by apply list_elem_of_In.
  - intros Hx. exists x. split; [by apply list_elem_of_In | apply String.eqb_refl].
Qed.

Lemma to_select_Ok (self : HeartDiseaseRaw)
    (chosen_sets : list string) (chosen_centers : list Z) :
  length (centers self) = length (features self) →
  length (sets self) = length (features self) →
  mapM (to_select_at self chosen_sets chosen_centers)
    (seq 0 (length (features self)))
  = Ok (view_mask self chosen_sets chosen_centers).
Proof.
  intros Hc Hs.
  set (h := λ i : nat,
         match sets self !! i, centers self !! i with
         | Some s, Some c => selects chosen_sets chosen_centers s c
         | _, _ => false
         end).
  rewrite (mapM_Ok _ h).
  - f_equal. apply list_eq. intros i.
    unfold view_mask. rewrite list_lookup_fmap, lookup_zip_with. unfold h.
    destruct (decide (i < length (features self))%nat) as [Hi|Hi].
    + rewrite lookup_seq_lt by done. simpl.
      destruct (lookup_lt_is_Some_2 (sets self) i) as [s ->]; [lia|].
      destruct (lookup_lt_is_Some_2 (centers self) i) as [c ->]; [lia|].
      done.
    + rewrite lookup_seq_ge by lia. simpl.
      rewrite (lookup_ge_None_2 (sets self)) by lia. done.
  - intros i [_ Hi]%elem_of_seq. unfold to_select_at, h.
    destruct (lookup_lt_is_Some_2 (sets self) i) as [s Hsi]; [lia|].
    destruct (lookup_lt_is_Some_2 (centers self) i) as [c Hci]; [lia|].
    rewrite Hsi, Hci, (py_index_lookup _ _ _ Hsi). simpl.
    unfold selects. destruct (mem_string s chosen_sets); [|done].
    by rewrite (py_index_lookup _ _ _ Hci).
Qed.

Lemma length_view_mask (self : HeartDiseaseRaw)
    (chosen_sets : list string) (chosen_centers : list Z) :
  length (centers self) = length (features self) →
  length (sets self) = length (features self) →
  length (view_mask self chosen_sets chosen_centers)
  = length (features self).
Proof. intros Hc Hs. unfold view_mask. rewrite length_zip_with. lia. Qed.

Section ViewFacts.

Context (P : Platform).

(** [FedHeartDisease.__init__] is the base constructor, the check of the
    center and the selection by the mask; the selection never raises. *)
Lemma FedHeartDisease_init_eq (g : rng_state P) (center : Z)
    (train pooled : bool) (X y : dtype) (dbg : bool) :
  FedHeartDisease_init P g center train pooled X y dbg
  = let! (self, g') := HeartDiseaseRaw_init P g X y dbg in
    let! _ := assert (mem_Z center [0; 1; 2; 3]) in
    Ok (view self [split_name train]
          (if pooled then [0; 1; 2; 3] else [center]), g').
Proof.
  unfold FedHeartDisease_init.
  destruct (HeartDiseaseRaw_init P g X y dbg) as [[self g']|e] eqn:Hraw;
    [|done].
  apply HeartDiseaseRaw_init_lengths in Hraw as (Hl & Hc & Hs). simpl.
  destruct (assert _); [|done]. simpl.
  replace (if train then ["train"] else ["test"]) with [split_name train]
    by by destruct train.
  rewrite (to_select_Ok _ _ _ Hc Hs). simpl.
  pose proof (length_view_mask self [split_name train]
                (if pooled then [0; 1; 2; 3] else [center]) Hc Hs) as Hm.
  rewrite !select_from_Ok by (simpl; lia). simpl.
  by rewrite drop_0.
Qed.

End ViewFacts.

(** ** Records of a dataset and of its view *)

Lemma rows_lookup (self : HeartDiseaseRaw) (i : nat) (r : row) :
  rows self !! i = Some r ↔
  features self !! i = Some (r_features r)
  ∧ labels self !! i = Some (r_label r)
  ∧ centers self !! i = Some (r_center r)
  ∧ sets self !! i = Some (r_set r).
Proof.
  unfold rows. rewrite lookup_zip_with_Some. split.
  - intros ([X y] & [c s] & -> & HXy & Hcs).
    apply lookup_zip_with_Some in HXy as (? & ? & [= <- <-] & ? & ?).
    apply lookup_zip_with_Some in Hcs as (? & ? & [= <- <-] & ? & ?).
    done.
  - intros (HX & Hy & Hc & Hs).
    exists (r_features r, r_label r), (r_center r, r_set r).
    split_and!; [by destruct r | |]; apply lookup_zip_with_Some; eauto.
Qed.

Lemma rows_view (self : HeartDiseaseRaw) (chosen_sets : list string)
    (chosen_centers : list Z) :
  rows (base (view self chosen_sets chosen_centers))
  = pick (view_mask self chosen_sets chosen_centers) (rows self).
Proof. unfold rows, view, with_rows. simpl. by rewrite !pick_zip_with. Qed.

Lemma view_mask_lookup (self : HeartDiseaseRaw) (chosen_sets : list string)
    (chosen_centers : list Z) (i : nat) (s : string) (c : Z) :
  sets self !! i = Some s →
  centers self !! i = Some c →
  view_mask self chosen_sets chosen_centers !! i
  = Some (selects chosen_sets chosen_centers s c).
Proof.
  intros Hs Hc. unfold view_mask. by rewrite lookup_zip_with, Hs, Hc.
Qed.

(** A record of the view is a record of the base dataset that the mask
    selects. *)
Lemma elem_of_rows_view (self : HeartDiseaseRaw) (chosen_sets : list string)
    (chosen_centers : list Z) (r : row) :
  r ∈ rows (base (view self chosen_sets chosen_centers)) →
  ∃ i, rows self !! i = Some r
       ∧ r_set r ∈ chosen_sets ∧ r_center r ∈ chosen_centers.
Proof.
  rewrite rows_view, elem_of_pick. intros (i & Hm & Hr).
  exists i. split; [done|].
  apply rows_lookup in Hr as (_ & _ & Hc & Hs).
  rewrite (view_mask_lookup _ _ _ _ _ _ Hs Hc) in Hm.
  injection Hm as Hm. unfold selects in Hm.
  apply andb_true_iff in Hm as [Hs' Hc'].
  by rewrite <- mem_string_elem_of, <- mem_Z_elem_of.
Qed.

Lemma length_pick_same {A B : Type} (mask : list bool) (xs : list A)
    (ys : list B) :
  length xs = length ys → length (pick mask xs) = length (pick mask ys).
Proof.
  intros Hlen.
  by rewrite <- (length_pick_seq mask xs 0), <- (length_pick_seq mask ys 0), Hlen.
Qed.

Lemma view_mask_mono (self : HeartDiseaseRaw) (chosen_sets : list string)
    (cc1 cc2 : list Z) :
  cc1 ⊆ cc2 →
  Forall2 (λ b1 b2 : bool, b1 = true → b2 = true)
    (view_mask self chosen_sets cc1) (view_mask self chosen_sets cc2).
Proof.
  intros Hsub. unfold view_mask.
  generalize (centers self). induction (sets self) as [|s l IH];
    intros [|c k]; simpl; constructor; [|apply IH].
  unfold selects. intros [Hs Hc]%andb_true_iff.
  apply andb_true_iff. split; [done|].
  apply mem_Z_elem_of, Hsub. by apply mem_Z_elem_of.
Qed.

Section Outcome.

Context (P : Platform).

(** A successful [FedHeartDisease.__init__]. *)
Lemma FedHeartDisease_init_Ok (g : rng_state P) (center : Z)
    (train pooled : bool) (X y : dtype) (dbg : bool)
    (fed : FedHeartDisease) (g' : rng_state P) :
  FedHeartDisease_init P g center train pooled X y dbg = Ok (fed, g') →
  ∃ raw,
    HeartDiseaseRaw_init P g X y dbg = Ok (raw, g')
    ∧ center ∈ [0; 1; 2; 3]
    ∧ fed = view raw [split_name train]
              (if pooled then [0; 1; 2; 3] else [center]).
Proof.
  rewrite FedHeartDisease_init_eq.
  intros ([raw g1] & Hraw & H)%bind_Ok.
  apply bind_Ok in H as ([] & Hassert & [= <- <-]).
  exists raw. split_and!; [done| |done].
  apply mem_Z_elem_of. unfold assert in Hassert.
  by destruct (mem_Z center [0; 1; 2; 3]).
Qed.

Lemma FedHeartDisease_init_intro (g : rng_state P) (center : Z)
    (train pooled : bool) (X y : dtype) (dbg : bool)
    (raw : HeartDiseaseRaw) (g' : rng_state P) :
  HeartDiseaseRaw_init P g X y dbg = Ok (raw, g') →
  center ∈ [0; 1; 2; 3] →
  FedHeartDisease_init P g center train pooled X y dbg
  = Ok (view raw [split_name train]
          (if pooled then [0; 1; 2; 3] else [center]), g').
Proof.
  intros Hraw Hc%mem_Z_elem_of. rewrite FedHeartDisease_init_eq, Hraw.
  cbn [bind]. by rewrite Hc.
Qed.

Lemma HeartDiseaseRaw_init_intro (g : rng_state P) (X y : dtype) (dbg : bool)
    (path : string) (st : loading P) (encoded : list (list value)) :
  check_dataset_from_config P "fed_heart_disease" dbg = Ok path →
  load_centers P (mkLoading P (mkFrame [] []) [] [] [] (np_random_seed P 8))
    (glob_data P path) = Ok st →
  get_dummies (ld_features st) [2; 6]%nat = Ok encoded →
  HeartDiseaseRaw_init P g X y dbg
  = Ok (mkRaw path X y dbg
          ((λ row, to X (from_numpy float32 row)) <$> encoded)
          (stored_label X <$> ld_labels st)
          (ld_centers st) (ld_sets st), ld_rng st).
Proof.
  intros Hpath Hst Henc. unfold HeartDiseaseRaw_init.
  rewrite Hpath. simpl. rewrite Hst. simpl. by rewrite Henc.
Qed.

End Outcome.

(** In a constructed dataset the lists of features and of labels have the
    same length. *)
Lemma constructed_lengths (self : HeartDiseaseRaw) :
  constructed self → length (labels self) = length (features self).
Proof.
  intros [(P0 & g & X & y & dbg & g' & Hraw)
         |(P0 & g & c & train & pooled & X & y & dbg & fed & g' & Hfed & <-)].
  - by apply HeartDiseaseRaw_init_lengths in Hraw as (? & _).
  - apply FedHeartDisease_init_Ok in Hfed as (raw & Hraw & _ & ->).
    apply HeartDiseaseRaw_init_lengths in Hraw as (Hl & _). simpl.
    by apply length_pick_same.
Qed.

(** [__getitem__] on a dataset whose lists of features and labels have the
    same length. *)
Lemma getitem_cases (self : HeartDiseaseRaw) (idx : Z) :
  length (labels self) = length (features self) →
  (len self ≤ idx → getitem self idx = Raise AssertionError)
  ∧ (0 ≤ idx < len self →
     ∃ X y, getitem self idx = Ok (X, y)
            ∧ features self !! Z.to_nat idx = Some X
            ∧ labels self !! Z.to_nat idx = Some y)
  ∧ (- len self ≤ idx < 0 →
     ∃ X y, getitem self idx = Ok (X, y)
            ∧ features self !! Z.to_nat (len self + idx) = Some X
            ∧ labels self !! Z.to_nat (len self + idx) = Some y)
  ∧ (idx < - len self → getitem self idx = Raise IndexError).
Proof.
  intros Hlen. unfold len, getitem. rewrite Hlen. split_and!; intros Hidx.
  - destruct (Z.ltb_spec idx (Z.of_nat (length (features self)))); [lia|done].
  - destruct (Z.ltb_spec idx (Z.of_nat (length (features self)))); [|lia].
    simpl.
    destruct (py_index_nonneg (features self) idx) as (X & -> & HX); [lia|].
    destruct (py_index_nonneg (labels self) idx) as (y & -> & Hy); [lia|].
    simpl. eauto.
  - destruct (Z.ltb_spec idx (Z.of_nat (length (features self)))); [|lia].
    simpl.
    destruct (py_index_negative (features self) idx) as (X & -> & HX); [lia|].
    destruct (py_index_negative (labels self) idx) as (y & -> & Hy); [lia|].
    simpl. rewrite Hlen in Hy. eauto.
  - destruct (Z.ltb_spec idx (Z.of_nat (length (features self)))); [|lia].
    simpl. unfold py_index.
    destruct (Z.ltb_spec idx 0); [|lia].
    destruct (Z.ltb_spec (idx + Z.of_nat (length (features self))) 0); [|lia].
    done.
Qed.

(** ** Conversions of the two label values *)

Lemma cast_zero (d : dtype) (q : Q) :
  Qeq q 0 → ∃ q', cast d (Some q) = Some q' ∧ Qeq q' 0.
Proof.
  intros Hq. unfold cast. destruct (is_floating_point d); [by exists q|].
  assert (Qnum q = 0) as Hnum.
  { unfold Qeq in Hq. simpl in Hq. lia. }
  destruct d; try (eexists; split; [done|]; by rewrite Hnum).
  apply Qeq_bool_iff in Hq. rewrite Hq. by eexists.
Qed.

Lemma cast_one (d : dtype) : cast d (Some 1%Q) = Some 1%Q.
Proof. by destruct d. Qed.

Lemma stored_label_value (d : dtype) (v : value) :
  ∃ q, stored_label d v = mkTensor d [Some q]
       ∧ (Qeq q 0 ∨ Qeq q 1)
       ∧ (∀ q0, v = Some q0 → Qeq q0 0 → Qeq q 0)
       ∧ (∀ q0, v = Some q0 → ¬ Qeq q0 0 → Qeq q 1).
Proof.
  unfold stored_label, to, from_numpy, where_zero_else_one. simpl.
  destruct v as [q0|].
  - destruct (Qeq_bool q0 0) eqn:Hz.
    + apply Qeq_bool_iff in Hz.
      destruct (cast_zero d q0 Hz) as (q & -> & Hq).
      exists q. split_and!; [done|by left|done|].
      intros ? [= <-] Hn. by destruct Hn.
    + rewrite cast_one. exists 1%Q. split_and!; [done|by right| |done].
      intros ? [= <-] Hq%Qeq_bool_iff. congruence.
  - rewrite cast_one. exists 1%Q. split_and!; [done|by right|done..].
Qed.

Lemma bernoulli_threshold (u : Q) :
  bernoulli u = if Qlt_le_dec u (66 # 100) then "train" else "test".
Proof.
  unfold bernoulli, Qltb, train_fraction.
  destruct (Qlt_le_dec u (66 # 100)) as [Hlt|Hle].
  - destruct (Qle_bool (66 # 100) u) eqn:Hb; [|done].
    apply Qle_bool_iff in Hb. by apply Qlt_not_le in Hlt.
  - apply Qle_bool_iff in Hle. by rewrite Hle.
Qed.

(** ** The datasets of the small platform *)

Example split_dot_basename :
  split_dot "processed.cleveland.data" = ["processed"; "cleveland"; "data"].
Proof. reflexivity. Qed.

Example py_index_examples :
  py_index [10; 20; 30] (-1) = Ok 30
  ∧ py_index [10; 20; 30] 3 = Raise IndexError
  ∧ py_index [10; 20; 30] (-4) = Raise IndexError.
Proof. by split_and!. Qed.

Example one_record_loaded :
  (λ r, (centers r.1, sets r.1, labels r.1, length (features r.1)))
    <$> match HeartDiseaseRaw_init Demo.one_record 0 float32 int64 false with
        | Ok r => Some r
        | Raise _ => None
        end
  = Some ([0], ["train"], [mkTensor float32 [Some 1%Q]], 1%nat).
Proof. vm_compute. reflexivity. Qed.

Example demo_raw_centers_sets :
  centers Demo.raw = [0; 0; 0; 0; 1; 1; 1; 2; 3; 3; 3; 3]
  ∧ sets Demo.raw
    = ["train"; "test"; "train"; "train"; "test"; "test"; "train";
       "train"; "train"; "train"; "train"; "train"]
  ∧ centers (base Demo.fed) = [1; 1]
  ∧ sets (base Demo.fed) = ["test"; "test"].
Proof. by split_and!. Qed.

Lemma demo_raw_init (g : Z) :
  HeartDiseaseRaw_init Demo.platform g float32 int64 false
  = Ok (Demo.raw, Demo.raw_rng).
Proof. vm_compute. reflexivity. Qed.

Lemma demo_fed_init (g : Z) :
  FedHeartDisease_init Demo.platform g 1 false false float32 int64 false
  = Ok (Demo.fed, Demo.raw_rng).
Proof. vm_compute. reflexivity. Qed.

Lemma demo_raw_constructed : constructed Demo.raw.
Proof.
  left. exists Demo.platform, 0, float32, int64, false, Demo.raw_rng.
  apply demo_raw_init.
Qed.

Lemma demo_fed_constructed : constructed (base Demo.fed).
Proof.
  right.
  exists Demo.platform, 0, 1, false, false, float32, int64, false, Demo.fed,
    Demo.raw_rng.
  split; [apply demo_fed_init | done].
Qed.

(** * The claims *)

(** C1: every record that [FedHeartDisease] retains is a record of the base
    dataset whose split is the requested one ("train" when [train] is true,
    "test" otherwise); without pooling its center is the requested center,
    with pooling its center is one of 0, 1, 2, 3. *)
Theorem C1_view_center_and_split (P : Platform) (g : rng_state P)
    (center : Z) (train pooled : bool) (X y : dtype) (dbg : bool)
    (fed : FedHeartDisease) (g' : rng_state P) :
  FedHeartDisease_init P g center train pooled X y dbg = Ok (fed, g') →
  ∃ raw,
    HeartDiseaseRaw_init P g X y dbg = Ok (raw, g')
    ∧ center ∈ [0; 1; 2; 3]
    ∧ ∀ r, r ∈ rows (base fed) →
        (∃ i, rows raw !! i = Some r)
        ∧ r_set r = split_name train
        ∧ (if pooled then r_center r ∈ [0; 1; 2; 3] else r_center r = center).
Proof.
  intros (raw & Hraw & Hcenter & ->)%FedHeartDisease_init_Ok.
  exists raw. split_and!; [done..|].
  intros r (i & Hi & Hs & Hc)%elem_of_rows_view.
  split_and!; [by exists i | by apply list_elem_of_singleton in Hs |].
  destruct pooled; [done | by apply list_elem_of_singleton in Hc].
Qed.

Lemma C1_view_center_and_split_witness :
  FedHeartDisease_init Demo.platform 0 1 false false float32 int64 false
    = Ok (Demo.fed, Demo.raw_rng)
  ∧ length (rows (base Demo.fed)) = 2%nat
  ∧ ∃ raw,
      HeartDiseaseRaw_init Demo.platform 0 float32 int64 false
        = Ok (raw, Demo.raw_rng)
      ∧ 1 ∈ [0; 1; 2; 3]
      ∧ ∀ r, r ∈ rows (base Demo.fed) →
          (∃ i, rows raw !! i = Some r)
          ∧ r_set r = "test"
          ∧ r_center r = 1.
Proof.
  split; [apply demo_fed_init|]. split; [reflexivity|].
  exact (C1_view_center_and_split Demo.platform 0 1 false false
           float32 int64 false Demo.fed Demo.raw_rng (demo_fed_init 0)).
Defined.

(** C4: for a center among 0, 1, 2, 3 and a split, the records retained with
    pooling contain, in the same order, the records retained for that center
    alone, so the pooled dataset is at least as long. *)
Theorem C4_pooled_contains_center (P : Platform) (g : rng_state P)
    (center : Z) (train : bool) (X y : dtype) (dbg : bool)
    (single : FedHeartDisease) (g' : rng_state P) :
  FedHeartDisease_init P g center train false X y dbg = Ok (single, g') →
  ∃ pooled,
    FedHeartDisease_init P g center train true X y dbg = Ok (pooled, g')
    ∧ rows (base single) `sublist_of` rows (base pooled)
    ∧ (∀ r, r ∈ rows (base single) → r ∈ rows (base pooled))
    ∧ len (base single) ≤ len (base pooled).
Proof.
  intros (raw & Hraw & Hcenter & ->)%FedHeartDisease_init_Ok.
  eexists. split; [by apply FedHeartDisease_init_intro|].
  assert ([center] ⊆ [0; 1; 2; 3]) as Hsub.
  { intros c Hc%list_elem_of_singleton. by subst. }
  pose proof (view_mask_mono raw [split_name train] _ _ Hsub) as Hmono.
  assert (rows (base (view raw [split_name train] [center]))
          `sublist_of` rows (base (view raw [split_name train] [0; 1; 2; 3])))
    as Hrows.
  { rewrite !rows_view. by apply pick_mono. }
  split_and!; [done| |].
  - intros r Hr. by eapply elem_of_sublist.
  - unfold len. simpl. apply inj_le, sublist_length. by apply pick_mono.
Qed.

Lemma C4_pooled_contains_center_witness :
  ∃ single g',
    FedHeartDisease_init Demo.platform 0 3 true false float32 float32 false
      = Ok (single, g')
    ∧ ∃ pooled,
        FedHeartDisease_init Demo.platform 0 3 true true float32 float32 false
          = Ok (pooled, g')
        ∧ rows (base single) `sublist_of` rows (base pooled)
        ∧ (∀ r, r ∈ rows (base single) → r ∈ rows (base pooled))
        ∧ len (base single) ≤ len (base pooled).
Proof.
  destruct (FedHeartDisease_init Demo.platform 0 3 true false
              float32 float32 false) as [[single g']|e] eqn:Hfed;
    [|vm_compute in Hfed; discriminate].
  exists single, g'. split; [reflexivity|].
  exact (C4_pooled_contains_center Demo.platform 0 3 true
           float32 float32 false single g' Hfed).
Defined.

(** C5: on a dataset built by either constructor, the length is the number
    of stored labels; an index at or beyond the length makes [__getitem__]
    raise (the assertion fails), and an index from 0 up to the length returns
    the features and the label stored at that position. *)
Theorem C5_getitem_in_and_out_of_range (self : HeartDiseaseRaw) (idx : Z) :
  constructed self →
  len self = Z.of_nat (length (labels self))
  ∧ length (labels self) = length (features self)
  ∧ (len self ≤ idx → getitem self idx = Raise AssertionError)
  ∧ (0 ≤ idx < len self →
     ∃ X y, getitem self idx = Ok (X, y)
            ∧ features self !! Z.to_nat idx = Some X
            ∧ labels self !! Z.to_nat idx = Some y).
Proof.
  intros Hlen%constructed_lengths.
  destruct (getitem_cases self idx Hlen) as (Hge & Hin & _).
  by split_and!.
Qed.

Lemma C5_getitem_in_and_out_of_range_witness :
  constructed Demo.raw
  ∧ getitem Demo.raw 12 = Raise AssertionError
  ∧ ∃ X y, getitem Demo.raw 3 = Ok (X, y)
           ∧ features Demo.raw !! 3%nat = Some X
           ∧ labels Demo.raw !! 3%nat = Some y.
Proof.
  split; [apply demo_raw_constructed|]. split.
  - destruct (C5_getitem_in_and_out_of_range Demo.raw 12 demo_raw_constructed)
      as (_ & _ & Hout & _).
    apply Hout. by vm_compute.
  - destruct (C5_getitem_in_and_out_of_range Demo.raw 3 demo_raw_constructed)
      as (_ & _ & _ & Hin).
    apply Hin. by vm_compute.
Defined.

(** C10: on a non-empty dataset built by either constructor, a negative
    index no smaller than minus the length passes the assertion of
    [__getitem__] and returns the pair stored at position length + index; the
    assertion fails exactly for the indices at or beyond the length. *)
Theorem C10_negative_index_wraps (self : HeartDiseaseRaw) (idx : Z) :
  constructed self →
  - len self ≤ idx < 0 →
  (∃ X y, getitem self idx = Ok (X, y)
          ∧ features self !! Z.to_nat (len self + idx) = Some X
          ∧ labels self !! Z.to_nat (len self + idx) = Some y)
  ∧ (∀ j, getitem self j = Raise AssertionError ↔ len self ≤ j).
Proof.
  intros Hlen%constructed_lengths Hidx. split.
  - by apply (getitem_cases self idx Hlen).
  - intros j. split; [|by apply (getitem_cases self j Hlen)].
    intros Hj.
    destruct (getitem_cases self j Hlen) as (_ & Hin & Hneg & Hlow).
    destruct (Z_lt_le_dec j (len self)) as [Hlt|]; [exfalso|done].
    destruct (Z_lt_le_dec j 0) as [Hj0|Hj0].
    + destruct (Z_lt_le_dec j (- len self)) as [Hjl|Hjl].
      * rewrite Hlow in Hj by done. discriminate.
      * destruct Hneg as (? & ? & Hg & _); [lia|]. congruence.
    + destruct Hin as (? & ? & Hg & _); [lia|]. congruence.
Qed.

Lemma C10_negative_index_wraps_witness :
  constructed (base Demo.fed)
  ∧ - len (base Demo.fed) ≤ -1 < 0
  ∧ (∃ X y, getitem (base Demo.fed) (-1) = Ok (X, y)
            ∧ features (base Demo.fed)
                !! Z.to_nat (len (base Demo.fed) + -1) = Some X
            ∧ labels (base Demo.fed)
                !! Z.to_nat (len (base Demo.fed) + -1) = Some y)
  ∧ (∀ j, getitem (base Demo.fed) j = Raise AssertionError
          ↔ len (base Demo.fed) ≤ j).
Proof.
  assert (- len (base Demo.fed) ≤ -1 < 0) as Hidx by by vm_compute.
  split; [apply demo_fed_constructed|]. split; [exact Hidx|].
  exact (C10_negative_index_wraps (base Demo.fed) (-1)
           demo_fed_constructed Hidx).
Defined.

(** C2: after the construction of [HeartDiseaseRaw] every stored label is 0
    or 1; the label of a record is 0 when the label read for it was 0 and 1
    when it was any other number. *)
Theorem C2_labels_binarized (P : Platform) (g : rng_state P) (X y : dtype)
    (dbg : bool) (raw : HeartDiseaseRaw) (g' : rng_state P) :
  HeartDiseaseRaw_init P g X y dbg = Ok (raw, g') →
  ∃ st,
    load_centers P (mkLoading P (mkFrame [] []) [] [] [] (np_random_seed P 8))
      (glob_data P (data_dir raw)) = Ok st
    ∧ length (labels raw) = length (ld_labels st)
    ∧ ∀ i t, labels raw !! i = Some t →
        ∃ v q, ld_labels st !! i = Some v
               ∧ t = mkTensor X [Some q]
               ∧ (Qeq q 0 ∨ Qeq q 1)
               ∧ (∀ q0, v = Some q0 → Qeq q0 0 → Qeq q 0)
               ∧ (∀ q0, v = Some q0 → ¬ Qeq q0 0 → Qeq q 1).
Proof.
  intros (path & st & encoded & _ & Hst & _ & _ & -> & _)%HeartDiseaseRaw_init_Ok.
  exists st. simpl. split_and!; [done|by rewrite length_fmap|].
  intros i t (v & -> & Hv)%list_lookup_fmap_Some.
  destruct (stored_label_value X v) as (q & Hq & H01 & H0 & H1).
  by exists v, q.
Qed.

Lemma C2_labels_binarized_witness :
  HeartDiseaseRaw_init Demo.platform 0 float32 int64 false
    = Ok (Demo.raw, Demo.raw_rng)
  ∧ ∀ i t, labels Demo.raw !! i = Some t →
      ∃ q, t = mkTensor float32 [Some q] ∧ (Qeq q 0 ∨ Qeq q 1).
Proof.
  split; [apply demo_raw_init|].
  intros i t Ht.
  destruct (C2_labels_binarized Demo.platform 0 float32 int64 false
              Demo.raw Demo.raw_rng (demo_raw_init 0))
    as (st & _ & _ & Hlabels).
  destruct (Hlabels i t Ht) as (v & q & _ & Hq & H01 & _).
  exists q. split; [exact Hq | exact H01].
Defined.

(** C3: two constructions of [HeartDiseaseRaw] over the same files, found in
    the same order, give the same split to every record, whatever the state
    of the global generator before each of them: record number [i] is in
    "train" when the [i]-th number of the stream seeded with 8 is below 0.66
    and in "test" otherwise, the records being numbered in the order of the
    files. *)
Theorem C3_split_reproducible (P : Platform) (g1 g2 : rng_state P)
    (X1 y1 X2 y2 : dtype) (dbg : bool) (raw1 raw2 : HeartDiseaseRaw)
    (g1' g2' : rng_state P) :
  HeartDiseaseRaw_init P g1 X1 y1 dbg = Ok (raw1, g1') →
  HeartDiseaseRaw_init P g2 X2 y2 dbg = Ok (raw2, g2') →
  sets raw1 = sets raw2
  ∧ length (sets raw1) = retained_total (glob_data P (data_dir raw1))
  ∧ sets raw1
    = bernoulli <$> draws P (length (sets raw1)) (np_random_seed P 8)
  ∧ (∀ i s, sets raw1 !! i = Some s →
       ∃ u, draws P (length (sets raw1)) (np_random_seed P 8) !! i = Some u
            ∧ s = if Qlt_le_dec u (66 # 100) then "train" else "test")
  ∧ g1' = g2'.
Proof.
  intros (p1 & st1 & e1 & Hp1 & Hst1 & [_ _ _ _ Hs1 Hg1] & _ & -> & ->)
           %HeartDiseaseRaw_init_Ok
         (p2 & st2 & e2 & Hp2 & Hst2 & [_ _ _ _ Hs2 Hg2] & _ & -> & ->)
           %HeartDiseaseRaw_init_Ok.
  rewrite Hp1 in Hp2. injection Hp2 as <-. simpl.
  assert (length (ld_sets st1) = retained_total (glob_data P p1)) as Hlen.
  { by rewrite Hs1, length_fmap, length_draws. }
  rewrite Hlen. split_and!; [congruence|done..| |congruence].
  intros i s. rewrite Hs1. intros (u & -> & Hu)%list_lookup_fmap_Some.
  exists u. split; [done|]. apply bernoulli_threshold.
Qed.

Lemma C3_split_reproducible_witness :
  HeartDiseaseRaw_init Demo.platform 0 float32 int64 false
    = Ok (Demo.raw, Demo.raw_rng)
  ∧ ∃ raw2 g2',
      HeartDiseaseRaw_init Demo.platform 777 float64 float32 false
        = Ok (raw2, g2')
      ∧ sets Demo.raw = sets raw2
      ∧ Demo.raw_rng = g2'.
Proof.
  split; [apply demo_raw_init|].
  destruct (HeartDiseaseRaw_init Demo.platform 777 float64 float32 false)
    as [[raw2 g2']|e] eqn:Hraw2; [|vm_compute in Hraw2; discriminate].
  exists raw2, g2'. split; [reflexivity|].
  destruct (C3_split_reproducible Demo.platform 0 777 float32 int64
              float64 float32 false Demo.raw raw2 Demo.raw_rng g2'
              (demo_raw_init 0) Hraw2)
    as (Hsets & _ & _ & _ & Hrng).
  split; [exact Hsets | exact Hrng].
Defined.

(** C6: with a center outside 0, 1, 2, 3 the construction of
    [FedHeartDisease] raises, whatever [pooled] and [train] are, and once the
    base constructor has returned it is the assertion that fails; with a
    center among 0, 1, 2, 3 the construction returns whenever the base
    constructor does, and raises only what the base constructor raises. *)
Theorem C6_center_checked (P : Platform) (g : rng_state P) (center : Z)
    (train pooled : bool) (X y : dtype) (dbg : bool) :
  (center ∉ [0; 1; 2; 3] →
     (∃ e, FedHeartDisease_init P g center train pooled X y dbg = Raise e)
     ∧ (∀ raw g', HeartDiseaseRaw_init P g X y dbg = Ok (raw, g') →
          FedHeartDisease_init P g center train pooled X y dbg
          = Raise AssertionError))
  ∧ (center ∈ [0; 1; 2; 3] →
       (∀ raw g', HeartDiseaseRaw_init P g X y dbg = Ok (raw, g') →
          ∃ fed, FedHeartDisease_init P g center train pooled X y dbg
                 = Ok (fed, g'))
       ∧ (∀ e, FedHeartDisease_init P g center train pooled X y dbg = Raise e →
            HeartDiseaseRaw_init P g X y dbg = Raise e)).
Proof.
  split.
  - intros Hout.
    assert (mem_Z center [0; 1; 2; 3] = false) as Hmem.
    { destruct (mem_Z center [0; 1; 2; 3]) eqn:Hm; [|done].
      by apply mem_Z_elem_of in Hm. }
    rewrite FedHeartDisease_init_eq.
    destruct (HeartDiseaseRaw_init P g X y dbg) as [[raw g']|e]; cbn [bind].
    + rewrite Hmem. simpl. split; [by eexists|done].
    + split; [by eexists|done].
  - intros Hin. split.
    + intros raw g' Hraw. eexists. by apply FedHeartDisease_init_intro.
    + intros e. rewrite FedHeartDisease_init_eq.
      destruct (HeartDiseaseRaw_init P g X y dbg) as [[raw g']|e']; cbn [bind];
        [|by intros [= ->]].
      apply mem_Z_elem_of in Hin. by rewrite Hin.
Qed.

Lemma C6_center_checked_witness :
  ((5 ∉ [0; 1; 2; 3])
   ∧ FedHeartDisease_init Demo.platform 0 5 true true float32 int64 false
     = Raise AssertionError)
  ∧ ((2 ∈ [0; 1; 2; 3])
     ∧ ∃ fed, FedHeartDisease_init Demo.platform 0 2 true false
                float32 int64 false = Ok (fed, Demo.raw_rng)).
Proof.
  assert (5 ∉ [0; 1; 2; 3]) as Hout.
  { intros Hin%mem_Z_elem_of. discriminate. }
  assert (2 ∈ [0; 1; 2; 3]) as Hin by by apply mem_Z_elem_of.
  split; (split; [done|]).
  - destruct (C6_center_checked Demo.platform 0 5 true true
                float32 int64 false) as [Hbad _].
    destruct (Hbad Hout) as [_ Hassert].
    exact (Hassert Demo.raw Demo.raw_rng (demo_raw_init 0)).
  - destruct (C6_center_checked Demo.platform 0 2 true false
                float32 int64 false) as [_ Hgood].
    destruct (Hgood Hin) as [Hok _].
    exact (Hok Demo.raw Demo.raw_rng (demo_raw_init 0)).
Defined.

(** C7: the length of [HeartDiseaseRaw] is the number of lines retained over
    all the files of the directory, a line being retained when, [?] read as
    missing and the columns 10, 11 and 12 left out, it has no missing
    field. *)
Theorem C7_len_counts_retained (P : Platform) (g : rng_state P)
    (X y : dtype) (dbg : bool) (raw : HeartDiseaseRaw) (g' : rng_state P) :
  HeartDiseaseRaw_init P g X y dbg = Ok (raw, g') →
  check_dataset_from_config P "fed_heart_disease" dbg = Ok (data_dir raw)
  ∧ len raw = Z.of_nat (retained_total (glob_data P (data_dir raw))).
Proof.
  intros (path & st & encoded & Hpath & _ & [_ Hl _ _ _ _] & _ & -> & _)
           %HeartDiseaseRaw_init_Ok.
  unfold len. simpl. by rewrite length_fmap, Hl.
Qed.

Lemma C7_len_counts_retained_witness :
  HeartDiseaseRaw_init Demo.platform 0 float32 int64 false
    = Ok (Demo.raw, Demo.raw_rng)
  ∧ check_dataset_from_config Demo.platform "fed_heart_disease" false
    = Ok (data_dir Demo.raw)
  ∧ len Demo.raw
    = Z.of_nat (retained_total
                  (glob_data Demo.platform (data_dir Demo.raw))).
Proof.
  split; [apply demo_raw_init|].
  exact (C7_len_counts_retained Demo.platform 0 float32 int64 false
           Demo.raw Demo.raw_rng (demo_raw_init 0)).
Defined.

(** C8: the view is obtained with one mask, entry [i] of which tells whether
    the set and the center of record [i] are the chosen ones; the same mask
    selects the features, the labels, the centers and the sets, so the record
    number [k] of the view has the four entries of one record of the base
    dataset, and the records of the view come in the order they have in the
    base dataset. *)
Theorem C8_one_mask_in_parallel (P : Platform) (g : rng_state P)
    (center : Z) (train pooled : bool) (X y : dtype) (dbg : bool)
    (fed : FedHeartDisease) (g' : rng_state P) :
  FedHeartDisease_init P g center train pooled X y dbg = Ok (fed, g') →
  ∃ raw to_select kept,
    HeartDiseaseRaw_init P g X y dbg = Ok (raw, g')
    ∧ length to_select = length (features raw)
    ∧ (∀ i s c, sets raw !! i = Some s → centers raw !! i = Some c →
         to_select !! i
         = Some (mem_string s (chosen_sets fed)
                 && mem_Z c (chosen_centers fed)))
    ∧ features (base fed) = pick to_select (features raw)
    ∧ labels (base fed) = pick to_select (labels raw)
    ∧ centers (base fed) = pick to_select (centers raw)
    ∧ sets (base fed) = pick to_select (sets raw)
    ∧ StronglySorted Nat.lt kept
    ∧ (∀ i, i ∈ kept ↔ to_select !! i = Some true)
    ∧ length (features (base fed)) = length kept
    ∧ ∀ k i, kept !! k = Some i →
        features (base fed) !! k = features raw !! i
        ∧ labels (base fed) !! k = labels raw !! i
        ∧ centers (base fed) !! k = centers raw !! i
        ∧ sets (base fed) !! k = sets raw !! i.
Proof.
  intros (raw & Hraw & _ & ->)%FedHeartDisease_init_Ok.
  destruct (HeartDiseaseRaw_init_lengths P _ _ _ _ _ _ Hraw) as (Hl & Hc & Hs).
  set (cs := [split_name train]).
  set (cc := if pooled then [0; 1; 2; 3] else [center]).
  pose proof (length_view_mask raw cs cc Hc Hs) as Hm.
  exists raw, (view_mask raw cs cc),
    (pick (view_mask raw cs cc) (seq 0 (length (features raw)))).
  split_and!; try done.
  - intros i s c Hsi Hci. by apply view_mask_lookup.
  - apply pick_seq_sorted.
  - intros i. rewrite elem_of_pick. split.
    + intros (j & Hj & [-> _]%lookup_seq). done.
    + intros Hi. exists i. split; [done|].
      apply lookup_seq. split; [done|].
      rewrite <- Hm. by eapply lookup_lt_Some.
  - simpl. by rewrite length_pick_seq.
  - intros k i Hk. simpl. split_and!.
    + by apply pick_lookup in Hk as (j & -> & _ & ->).
    + rewrite <- Hl in Hk. by apply pick_lookup in Hk as (j & -> & _ & ->).
    + rewrite <- Hc in Hk. by apply pick_lookup in Hk as (j & -> & _ & ->).
    + rewrite <- Hs in Hk. by apply pick_lookup in Hk as (j & -> & _ & ->).
Qed.

Lemma C8_one_mask_in_parallel_witness :
  FedHeartDisease_init Demo.platform 0 1 false false float32 int64 false
    = Ok (Demo.fed, Demo.raw_rng)
  ∧ ∃ to_select kept,
      features (base Demo.fed) = pick to_select (features Demo.raw)
      ∧ labels (base Demo.fed) = pick to_select (labels Demo.raw)
      ∧ centers (base Demo.fed) = pick to_select (centers Demo.raw)
      ∧ sets (base Demo.fed) = pick to_select (sets Demo.raw)
      ∧ StronglySorted Nat.lt kept
      ∧ ∀ k i, kept !! k = Some i →
          features (base Demo.fed) !! k = features Demo.raw !! i
          ∧ labels (base Demo.fed) !! k = labels Demo.raw !! i
          ∧ centers (base Demo.fed) !! k = centers Demo.raw !! i
          ∧ sets (base Demo.fed) !! k = sets Demo.raw !! i.
Proof.
  split; [apply demo_fed_init|].
  destruct (C8_one_mask_in_parallel Demo.platform 0 1 false false
              float32 int64 false Demo.fed Demo.raw_rng (demo_fed_init 0))
    as (raw & to_select & kept & Hraw & _ & _ & HF & HL & HC & HS
        & Hsorted & _ & _ & Hkept).
  rewrite (demo_raw_init 0) in Hraw. injection Hraw as <-.
  exists to_select, kept. by split_and!.
Defined.

(** C9: the label tensors of [HeartDiseaseRaw] have the dtype [X_dtype]
    whatever [y_dtype] is; [y_dtype] is stored, and another [y_dtype] gives
    the same features, labels, centers and sets, hence the same results of
    [__getitem__], for the raw dataset and for every view of it. *)
Theorem C9_y_dtype_unused (P : Platform) (g : rng_state P)
    (X y1 y2 : dtype) (dbg : bool) (raw1 : HeartDiseaseRaw)
    (g' : rng_state P) :
  HeartDiseaseRaw_init P g X y1 dbg = Ok (raw1, g') →
  y_dtype raw1 = y1
  ∧ Forall (λ t, t_dtype t = X) (labels raw1)
  ∧ ∃ raw2,
      HeartDiseaseRaw_init P g X y2 dbg = Ok (raw2, g')
      ∧ y_dtype raw2 = y2
      ∧ features raw2 = features raw1
      ∧ labels raw2 = labels raw1
      ∧ centers raw2 = centers raw1
      ∧ sets raw2 = sets raw1
      ∧ (∀ idx, getitem raw2 idx = getitem raw1 idx)
      ∧ ∀ center train pooled, center ∈ [0; 1; 2; 3] →
          ∃ fed1 fed2,
            FedHeartDisease_init P g center train pooled X y1 dbg
              = Ok (fed1, g')
            ∧ FedHeartDisease_init P g center train pooled X y2 dbg
              = Ok (fed2, g')
            ∧ Forall (λ t, t_dtype t = X) (labels (base fed1))
            ∧ ∀ idx, getitem (base fed2) idx = getitem (base fed1) idx.
Proof.
  intros Hraw1.
  destruct (HeartDiseaseRaw_init_Ok P _ _ _ _ _ _ Hraw1)
    as (path & st & encoded & Hpath & Hst & _ & Henc & -> & ->).
  pose proof (HeartDiseaseRaw_init_intro P g X y2 dbg _ _ _ Hpath Hst Henc)
    as Hraw2.
  assert (Forall (λ t, t_dtype t = X) (stored_label X <$> ld_labels st))
    as Hdtype.
  { apply Forall_fmap, Forall_forall. by intros v _. }
  split_and!; [done..|].
  eexists. split_and!; [exact Hraw2|done..|].
  intros center train pooled Hcenter.
  eexists _, _. split_and!.
  - by apply FedHeartDisease_init_intro.
  - by apply FedHeartDisease_init_intro.
  - simpl. apply Forall_forall. intros t Ht.
    rewrite Forall_forall in Hdtype. apply Hdtype.
    eapply elem_of_sublist; [done | apply pick_sublist].
  - done.
Qed.

Lemma C9_y_dtype_unused_witness :
  HeartDiseaseRaw_init Demo.platform 0 float32 int64 false
    = Ok (Demo.raw, Demo.raw_rng)
  ∧ y_dtype Demo.raw = int64
  ∧ Forall (λ t, t_dtype t = float32) (labels Demo.raw)
  ∧ ∃ raw2,
      HeartDiseaseRaw_init Demo.platform 0 float32 float16 false
        = Ok (raw2, Demo.raw_rng)
      ∧ y_dtype raw2 = float16
      ∧ labels raw2 = labels Demo.raw
      ∧ ∀ idx, getitem raw2 idx = getitem Demo.raw idx.
Proof.
  split; [apply demo_raw_init|].
  destruct (C9_y_dtype_unused Demo.platform 0 float32 int64 float16 false
              Demo.raw Demo.raw_rng (demo_raw_init 0))
    as (Hy & Hdtype & raw2 & Hraw2 & Hy2 & _ & HL & _ & _ & Hget & _).
  split; [exact Hy|]. split; [exact Hdtype|].
  exists raw2. by split_and!.
Defined.

(** * Further properties of the loader and of the view *)

(** ** The view as a filter of the records *)

Lemma pick_fmap_filter {A : Type} (p : A → bool) (xs : list A) :
  pick (p <$> xs) xs = List.filter p xs.
Proof.
  induction xs as [|x xs IH]; [done|].
  rewrite fmap_cons. simpl. rewrite IH. by destruct (p x).
Qed.

Lemma length_rows (self : HeartDiseaseRaw) :
  length (labels self) = length (features self) →
  length (centers self) = length (features self) →
  length (sets self) = length (features self) →
  length (rows self) = length (features self).
Proof.
  intros Hl Hc Hs. unfold rows. rewrite !length_zip_with. lia.
Qed.

Lemma view_mask_rows (self : HeartDiseaseRaw) (chosen_sets : list string)
    (chosen_centers : list Z) :
  length (labels self) = length (features self) →
  length (centers self) = length (features self) →
  length (sets self) = length (features self) →
  view_mask self chosen_sets chosen_centers
  = (λ r, selects chosen_sets chosen_centers (r_set r) (r_center r))
      <$> rows self.
Proof.
  intros Hl Hc Hs. apply list_eq. intros i.
  rewrite list_lookup_fmap.
  destruct (decide (i < length (features self))%nat) as [Hi|Hi].
  - destruct (lookup_lt_is_Some_2 (features self) i) as [X HX]; [lia|].
    destruct (lookup_lt_is_Some_2 (labels self) i) as [y Hy]; [lia|].
    destruct (lookup_lt_is_Some_2 (centers self) i) as [c Hci]; [lia|].
    destruct (lookup_lt_is_Some_2 (sets self) i) as [s Hsi]; [lia|].
    rewrite (view_mask_lookup _ _ _ _ _ _ Hsi Hci).
    assert (rows self !! i = Some (mkRow X y c s)) as ->; [|done].
    by apply rows_lookup.
  - rewrite (lookup_ge_None_2 (rows self)).
    + apply lookup_ge_None_2. rewrite length_view_mask by done. lia.
    + rewrite length_rows by done. lia.
Qed.

Lemma rows_view_filter (self : HeartDiseaseRaw) (chosen_sets : list string)
    (chosen_centers : list Z) :
  length (labels self) = length (features self) →
  length (centers self) = length (features self) →
  length (sets self) = length (features self) →
  rows (base (view self chosen_sets chosen_centers))
  = List.filter
      (λ r, selects chosen_sets chosen_centers (r_set r) (r_center r))
      (rows self).
Proof.
  intros Hl Hc Hs.
  by rewrite rows_view, (view_mask_rows _ _ _ Hl Hc Hs), pick_fmap_filter.
Qed.

Lemma selects_wanted (center : Z) (train pooled : bool) (r : row) :
  r_center r ∈ [0; 1; 2; 3] →
  selects [split_name train] (if pooled then [0; 1; 2; 3] else [center])
    (r_set r) (r_center r)
  = wanted center train pooled r.
Proof.
  intros Hc%mem_Z_elem_of. unfold selects, wanted, mem_string.
  simpl existsb at 1. rewrite orb_false_r. f_equal.
  destruct pooled; [done|]. simpl. by rewrite orb_false_r.
Qed.

Section RawFacts.

Context (P : Platform).

(** The records of a constructed raw dataset: a center among the four and
    one of the two sets. *)
Lemma HeartDiseaseRaw_init_rows (g : rng_state P) (X y : dtype) (dbg : bool)
    (raw : HeartDiseaseRaw) (g' : rng_state P) :
  HeartDiseaseRaw_init P g X y dbg = Ok (raw, g') →
  Forall (λ r, r_center r ∈ [0; 1; 2; 3]
               ∧ (r_set r = "train" ∨ r_set r = "test")) (rows raw).
Proof.
  intros (path & st & encoded & _ & _ & [_ _ _ Hr Hs _] & _ & -> & _)
           %HeartDiseaseRaw_init_Ok.
  apply Forall_forall. intros r (i & Hi)%list_elem_of_lookup.
  apply rows_lookup in Hi as (_ & _ & Hc & Hset). simpl in *. split.
  - rewrite Forall_forall in Hr. apply Hr. by eapply list_elem_of_lookup_2.
  - rewrite Hs in Hset.
    apply list_lookup_fmap_Some in Hset as (u & -> & _).
    unfold bernoulli. destruct (Qltb u train_fraction); auto.
Qed.

Lemma FedHeartDisease_init_filter (g : rng_state P) (center : Z)
    (train pooled : bool) (X y : dtype) (dbg : bool)
    (fed : FedHeartDisease) (g' : rng_state P) :
  FedHeartDisease_init P g center train pooled X y dbg = Ok (fed, g') →
  ∃ raw,
    HeartDiseaseRaw_init P g X y dbg = Ok (raw, g')
    ∧ rows (base fed) = List.filter (wanted center train pooled) (rows raw)
    ∧ length (rows (base fed)) = length (labels (base fed))
    ∧ length (rows raw) = length (labels raw).
Proof.
  intros (raw & Hraw & _ & ->)%FedHeartDisease_init_Ok.
  destruct (HeartDiseaseRaw_init_lengths P _ _ _ _ _ _ Hraw) as (Hl & Hc & Hs).
  exists raw. split_and!; [done| | |].
  - rewrite rows_view_filter by done.
    apply filter_ext_elem. intros r Hr. apply selects_wanted.
    pose proof (HeartDiseaseRaw_init_rows _ _ _ _ _ _ Hraw) as Hrows.
    rewrite Forall_forall in Hrows. by apply Hrows.
  - unfold rows, view. simpl. rewrite !length_zip_with.
    rewrite (length_pick_same _ (features raw) (labels raw)) by done.
    rewrite (length_pick_same _ (centers raw) (labels raw)) by lia.
    rewrite (length_pick_same _ (sets raw) (labels raw)) by lia. lia.
  - rewrite length_rows by done. lia.
Qed.

End RawFacts.

Lemma filter_split_Permutation {A : Type} (p q : A → bool) (l : list A) :
  (∀ x, x ∈ l → p x && q x = false) →
  List.filter (λ x, p x || q x) l ≡ₚ List.filter p l ++ List.filter q l.
Proof.
  induction l as [|x l IH]; intros Hpq; [done|].
  assert (List.filter (λ x, p x || q x) l
          ≡ₚ List.filter p l ++ List.filter q l) as IH'.
  { apply IH. intros z Hz. apply Hpq. by right. }
  specialize (Hpq x ltac:(left)). simpl.
  destruct (p x), (q x); simpl in *; try done.
  - by constructor.
  - rewrite IH'. apply Permutation_middle.
Qed.

Lemma filter_all {A : Type} (p : A → bool) (l : list A) :
  (∀ x, x ∈ l → p x = true) → List.filter p l = l.
Proof.
  induction l as [|x l IH]; intros Hp; [done|]. simpl.
  rewrite (Hp x) by left. f_equal. apply IH. intros z Hz. apply Hp. by right.
Qed.

Lemma getitem_lookup (self : HeartDiseaseRaw) (i : nat) (X y : Tensor) :
  length (labels self) = length (features self) →
  features self !! i = Some X →
  labels self !! i = Some y →
  getitem self (Z.of_nat i) = Ok (X, y).
Proof.
  intros Hlen HX Hy.
  destruct (getitem_cases self (Z.of_nat i) Hlen) as (_ & Hin & _).
  destruct Hin as (X' & y' & -> & HX' & Hy').
  { unfold len. apply lookup_lt_Some in Hy. lia. }
  rewrite Nat2Z.id in HX', Hy'. congruence.
Qed.

(** X1: the records of a view are exactly the records of the base dataset,
    in the order of the base dataset, whose set is the requested one and,
    without pooling, whose center is the requested one; none that is asked
    for is lost. *)
Theorem X1_view_keeps_exactly_wanted (P : Platform) (g : rng_state P)
    (center : Z) (train pooled : bool) (X y : dtype) (dbg : bool)
    (fed : FedHeartDisease) (g' : rng_state P) :
  FedHeartDisease_init P g center train pooled X y dbg = Ok (fed, g') →
  ∃ raw,
    HeartDiseaseRaw_init P g X y dbg = Ok (raw, g')
    ∧ rows (base fed) = List.filter (wanted center train pooled) (rows raw)
    ∧ (∀ r, r ∈ rows (base fed) ↔
            r ∈ rows raw ∧ r_set r = split_name train
            ∧ (pooled = false → r_center r = center))
    ∧ len (base fed)
      = Z.of_nat (length (List.filter (wanted center train pooled)
                            (rows raw))).
Proof.
  intros (raw & Hraw & Hrows & Hlen & _)%FedHeartDisease_init_filter.
  exists raw. split_and!; [done..| |].
  - intros r. rewrite Hrows, list_elem_of_In, filter_In, <- list_elem_of_In.
    unfold wanted. rewrite andb_true_iff, String.eqb_eq.
    destruct pooled; simpl; [intuition congruence|].
    rewrite Z.eqb_eq. intuition congruence.
  - unfold len. by rewrite <- Hlen, Hrows.
Qed.

Lemma X1_view_keeps_exactly_wanted_witness :
  FedHeartDisease_init Demo.platform 0 1 false false float32 int64 false
    = Ok (Demo.fed, Demo.raw_rng)
  ∧ rows (base Demo.fed) = List.filter (wanted 1 false false) (rows Demo.raw)
  ∧ len (base Demo.fed) = 2.
Proof.
  split; [apply demo_fed_init|].
  destruct (X1_view_keeps_exactly_wanted Demo.platform 0 1 false false
              float32 int64 false Demo.fed Demo.raw_rng (demo_fed_init 0))
    as (raw & Hraw & Hrows & _ & _).
  rewrite (demo_raw_init 0) in Hraw. injection Hraw as <-.
  split; [exact Hrows | reflexivity].
Defined.

(** X2: for one center (or with pooling) the train view and the test view
    share no record and together hold, up to the order, the records of the
    base dataset of that center (all of them with pooling); with pooling
    their lengths add up to the length of the raw dataset. *)
Theorem X2_train_and_test_partition (P : Platform) (g : rng_state P)
    (center : Z) (pooled : bool) (X y : dtype) (dbg : bool)
    (ftrain ftest : FedHeartDisease) (g1 g2 : rng_state P) :
  FedHeartDisease_init P g center true pooled X y dbg = Ok (ftrain, g1) →
  FedHeartDisease_init P g center false pooled X y dbg = Ok (ftest, g2) →
  ∃ raw,
    HeartDiseaseRaw_init P g X y dbg = Ok (raw, g1)
    ∧ rows (base ftrain) ++ rows (base ftest)
      ≡ₚ List.filter (λ r, pooled || Z.eqb (r_center r) center) (rows raw)
    ∧ (∀ r, r ∈ rows (base ftrain) → r ∉ rows (base ftest))
    ∧ (pooled = true →
       rows (base ftrain) ++ rows (base ftest) ≡ₚ rows raw
       ∧ len (base ftrain) + len (base ftest) = len raw).
Proof.
  intros (raw & Hraw & Htrain & Hltrain & Hlraw)%FedHeartDisease_init_filter
         (raw' & Hraw' & Htest & Hltest & _)%FedHeartDisease_init_filter.
  rewrite Hraw in Hraw'. injection Hraw' as <- <-.
  pose proof (HeartDiseaseRaw_init_rows _ _ _ _ _ _ _ Hraw) as Hrows.
  rewrite Forall_forall in Hrows.
  assert (rows (base ftrain) ++ rows (base ftest)
          ≡ₚ List.filter (λ r, pooled || Z.eqb (r_center r) center) (rows raw))
    as Hperm.
  { rewrite Htrain, Htest, <- filter_split_Permutation.
    - erewrite filter_ext_elem; [done|].
      intros r [_ [Hs|Hs]]%Hrows; unfold wanted; rewrite Hs; simpl;
        by destruct (pooled || _).
    - intros r _. unfold wanted. simpl.
      destruct (String.eqb_spec (r_set r) "train") as [->|]; [|done].
      by destruct (pooled || _). }
  exists raw. split_and!; [done..| |].
  - intros r. rewrite Htrain, Htest, !list_elem_of_In, !filter_In.
    unfold wanted. simpl. rewrite !andb_true_iff, !String.eqb_eq.
    intros (_ & Hs & _) (_ & Hs' & _). congruence.
  - intros ->. simpl in Hperm. rewrite filter_all in Hperm by done.
    split; [done|]. apply Permutation_length in Hperm.
    rewrite length_app in Hperm. unfold len. lia.
Qed.

Lemma X2_train_and_test_partition_witness :
  ∃ ftrain ftest g1 g2,
    FedHeartDisease_init Demo.platform 0 0 true true float32 int64 false
      = Ok (ftrain, g1)
    ∧ FedHeartDisease_init Demo.platform 0 0 false true float32 int64 false
      = Ok (ftest, g2)
    ∧ rows (base ftrain) ++ rows (base ftest) ≡ₚ rows Demo.raw
    ∧ len (base ftrain) + len (base ftest) = 12.
Proof.
  destruct (FedHeartDisease_init Demo.platform 0 0 true true
              float32 int64 false) as [[ftrain g1]|e] eqn:Htrain;
    [|vm_compute in Htrain; discriminate].
  destruct (FedHeartDisease_init Demo.platform 0 0 false true
              float32 int64 false) as [[ftest g2]|e] eqn:Htest;
    [|vm_compute in Htest; discriminate].
  exists ftrain, ftest, g1, g2. split; [reflexivity|]. split; [reflexivity|].
  destruct (X2_train_and_test_partition Demo.platform 0 0 true
              float32 int64 false ftrain ftest g1 g2 Htrain Htest)
    as (raw & Hraw & _ & _ & Hpooled).
  rewrite (demo_raw_init 0) in Hraw. injection Hraw as <- _.
  destruct (Hpooled eq_refl) as [Hperm Hlen].
  split; [exact Hperm | exact Hlen].
Defined.

Lemma wanted_pooled_by_center (train : bool) (r : row) :
  r_center r ∈ [0; 1; 2; 3] →
  wanted 0 train true r
  = wanted 0 train false r
    || (wanted 1 train false r
        || (wanted 2 train false r || wanted 3 train false r)).
Proof.
  intros Hc. unfold wanted. simpl.
  destruct (String.eqb (r_set r) (split_name train)); simpl; [|done].
  repeat (apply elem_of_cons in Hc as [->|Hc]; [done|]).
  by apply elem_of_nil in Hc.
Qed.

Lemma wanted_centers_disjoint (c1 c2 : Z) (train : bool) (r : row) :
  c1 ≠ c2 → wanted c1 train false r && wanted c2 train false r = false.
Proof.
  intros Hne. unfold wanted. simpl.
  destruct (Z.eqb_spec (r_center r) c1), (Z.eqb_spec (r_center r) c2);
    try congruence; by destruct (String.eqb _ _).
Qed.

(** X3: once the raw dataset can be built, the views of the four centers
    and the pooled view can be built for either split, and the pooled view
    holds, up to the order, the records of the four center views taken
    together: its length is the sum of their lengths. *)
Theorem X3_pooled_is_union_of_centers (P : Platform) (g : rng_state P)
    (train : bool) (X y : dtype) (dbg : bool)
    (raw : HeartDiseaseRaw) (g' : rng_state P) :
  HeartDiseaseRaw_init P g X y dbg = Ok (raw, g') →
  ∃ f0 f1 f2 f3 fp,
    FedHeartDisease_init P g 0 train false X y dbg = Ok (f0, g')
    ∧ FedHeartDisease_init P g 1 train false X y dbg = Ok (f1, g')
    ∧ FedHeartDisease_init P g 2 train false X y dbg = Ok (f2, g')
    ∧ FedHeartDisease_init P g 3 train false X y dbg = Ok (f3, g')
    ∧ FedHeartDisease_init P g 0 train true X y dbg = Ok (fp, g')
    ∧ rows (base fp)
      ≡ₚ rows (base f0) ++ rows (base f1) ++ rows (base f2) ++ rows (base f3)
    ∧ len (base fp)
      = len (base f0) + len (base f1) + len (base f2) + len (base f3).
Proof.
  intros Hraw.
  assert (∀ c pooled, c ∈ [0; 1; 2; 3] →
            ∃ f, FedHeartDisease_init P g c train pooled X y dbg = Ok (f, g')
                 ∧ rows (base f) = List.filter (wanted c train pooled) (rows raw)
                 ∧ len (base f) = Z.of_nat (length (rows (base f)))) as Hview.
  { intros c pooled Hc.
    pose proof (FedHeartDisease_init_intro P g c train pooled X y dbg
                  raw g' Hraw Hc) as Hf.
    eexists. split; [exact Hf|].
    apply FedHeartDisease_init_filter in Hf as (raw' & Hraw' & Hrows & Hl & _).
    rewrite Hraw in Hraw'. injection Hraw' as <-.
    split; [done|]. unfold len. by rewrite Hl. }
  destruct (Hview 0 false) as (f0 & H0 & Hr0 & Hl0); [set_solver|].
  destruct (Hview 1 false) as (f1 & H1 & Hr1 & Hl1); [set_solver|].
  destruct (Hview 2 false) as (f2 & H2 & Hr2 & Hl2); [set_solver|].
  destruct (Hview 3 false) as (f3 & H3 & Hr3 & Hl3); [set_solver|].
  destruct (Hview 0 true) as (fp & Hp & Hrp & Hlp); [set_solver|].
  exists f0, f1, f2, f3, fp. split_and!; try done.
  all: assert (rows (base fp)
               ≡ₚ rows (base f0) ++ rows (base f1) ++ rows (base f2)
                  ++ rows (base f3)) as Hperm.
  1, 3: rewrite Hrp, Hr0, Hr1, Hr2, Hr3;
    pose proof (HeartDiseaseRaw_init_rows _ _ _ _ _ _ _ Hraw) as Hrows;
    rewrite Forall_forall in Hrows;
    rewrite (filter_ext_elem (wanted 0 train true)
               (λ r, wanted 0 train false r
                     || (wanted 1 train false r
                         || (wanted 2 train false r || wanted 3 train false r))))
      by (intros r [Hc _]%Hrows; by apply wanted_pooled_by_center);
    rewrite filter_split_Permutation
      by (intros r _; rewrite !andb_orb_distrib_r,
            !wanted_centers_disjoint by done; done);
    rewrite (filter_split_Permutation (wanted 1 train false))
      by (intros r _; rewrite !andb_orb_distrib_r,
            !wanted_centers_disjoint by done; done);
    rewrite (filter_split_Permutation (wanted 2 train false))
      by (intros r _; by apply wanted_centers_disjoint);
    done.
  - done.
  - apply Permutation_length in Hperm. rewrite !length_app in Hperm. lia.
Qed.

Lemma X3_pooled_is_union_of_centers_witness :
  HeartDiseaseRaw_init Demo.platform 0 float32 int64 false
    = Ok (Demo.raw, Demo.raw_rng)
  ∧ ∃ f0 f1 f2 f3 fp,
      FedHeartDisease_init Demo.platform 0 1 false false float32 int64 false
        = Ok (f1, Demo.raw_rng)
      ∧ FedHeartDisease_init Demo.platform 0 0 false true float32 int64 false
        = Ok (fp, Demo.raw_rng)
      ∧ len (base fp)
        = len (base f0) + len (base f1) + len (base f2) + len (base f3).
Proof.
  split; [apply demo_raw_init|].
  destruct (X3_pooled_is_union_of_centers Demo.platform 0 false
              float32 int64 false Demo.raw Demo.raw_rng (demo_raw_init 0))
    as (f0 & f1 & f2 & f3 & fp & _ & H1 & _ & _ & Hp & _ & Hlen).
  exists f0, f1, f2, f3, fp. split; [exact H1|]. split; [exact Hp|exact Hlen].
Defined.

(** X4: on a dataset built by either constructor [__getitem__] returns a
    pair exactly for the indices from minus the length up to the length; a
    negative index in that range gives what the index plus the length gives,
    and below minus the length the assertion passes and the indexing raises
    [IndexError]. *)
Theorem X4_getitem_returns_iff_in_range (self : HeartDiseaseRaw) (idx : Z) :
  constructed self →
  ((∃ Xy, getitem self idx = Ok Xy) ↔ - len self ≤ idx < len self)
  ∧ (- len self ≤ idx < 0 → getitem self idx = getitem self (len self + idx))
  ∧ (idx < - len self → getitem self idx = Raise IndexError).
Proof.
  intros Hlen%constructed_lengths.
  destruct (getitem_cases self idx Hlen) as (Hge & Hin & Hneg & Hlow).
  split_and!; [split| |done].
  - intros [Xy HXy].
    destruct (Z_lt_le_dec idx (- len self)) as [?|?];
      [rewrite Hlow in HXy by done; discriminate|].
    destruct (Z_lt_le_dec idx (len self)) as [?|?]; [lia|].
    rewrite Hge in HXy by done. discriminate.
  - intros Hidx. destruct (Z_lt_le_dec idx 0) as [?|?].
    + destruct Hneg as (X & y & -> & _); [lia|]. by eexists.
    + destruct Hin as (X & y & -> & _); [lia|]. by eexists.
  - intros Hidx. destruct Hneg as (X & y & -> & HX & Hy); [done|].
    destruct (getitem_cases self (len self + idx) Hlen)
      as (_ & Hin' & _).
    destruct Hin' as (X' & y' & -> & HX' & Hy'); [lia|]. congruence.
Qed.

Lemma X4_getitem_returns_iff_in_range_witness :
  constructed Demo.raw
  ∧ getitem Demo.raw (-12) = getitem Demo.raw 0
  ∧ getitem Demo.raw (-13) = Raise IndexError.
Proof.
  split; [apply demo_raw_constructed|]. split.
  - destruct (X4_getitem_returns_iff_in_range Demo.raw (-12)
                demo_raw_constructed) as (_ & Hwrap & _).
    apply Hwrap. by vm_compute.
  - destruct (X4_getitem_returns_iff_in_range Demo.raw (-13)
                demo_raw_constructed) as (_ & _ & Hlow).
    apply Hlow. by vm_compute.
Defined.

(** X5: the constructor of the raw dataset leaves the global generator in
    the state reached from the seed 8 after one draw per record, whatever
    its state was before; building a view draws nothing more. *)
Theorem X5_generator_after_construction (P : Platform) (g : rng_state P)
    (center : Z) (train pooled : bool) (X y : dtype) (dbg : bool)
    (raw : HeartDiseaseRaw) (g' : rng_state P) :
  HeartDiseaseRaw_init P g X y dbg = Ok (raw, g') →
  g' = advance P (Z.to_nat (len raw)) (np_random_seed P 8)
  ∧ ∀ fed g'',
      FedHeartDisease_init P g center train pooled X y dbg = Ok (fed, g'') →
      g'' = g'.
Proof.
  intros Hraw. split.
  - apply HeartDiseaseRaw_init_Ok in Hraw
      as (path & st & encoded & _ & _ & [_ Hl _ _ _ Hg] & _ & -> & ->).
    unfold len. simpl. by rewrite length_fmap, Nat2Z.id, Hl.
  - intros fed g'' (raw' & Hraw' & _)%FedHeartDisease_init_Ok. congruence.
Qed.

Lemma X5_generator_after_construction_witness :
  HeartDiseaseRaw_init Demo.platform 4242 float32 int64 false
    = Ok (Demo.raw, Demo.raw_rng)
  ∧ Demo.raw_rng = advance Demo.platform 12 8.
Proof.
  split; [apply demo_raw_init|].
  exact (proj1 (X5_generator_after_construction Demo.platform 4242 0 true
                  false float32 int64 false Demo.raw Demo.raw_rng
                  (demo_raw_init 4242))).
Defined.

(** X6: indexed access on a view mirrors the base dataset: there is an
    increasing list of positions of the base dataset, as long as the view,
    such that [__getitem__] of the view at [k] returns the pair that
    [__getitem__] of the base dataset returns at the [k]-th position. *)
Theorem X6_view_getitem_mirrors_base (P : Platform) (g : rng_state P)
    (center : Z) (train pooled : bool) (X y : dtype) (dbg : bool)
    (fed : FedHeartDisease) (g' : rng_state P) :
  FedHeartDisease_init P g center train pooled X y dbg = Ok (fed, g') →
  ∃ raw kept,
    HeartDiseaseRaw_init P g X y dbg = Ok (raw, g')
    ∧ StronglySorted Nat.lt kept
    ∧ Z.of_nat (length kept) = len (base fed)
    ∧ ∀ k i, kept !! k = Some i →
        Z.of_nat i < len raw
        ∧ ∃ Xy, getitem (base fed) (Z.of_nat k) = Ok Xy
                ∧ getitem raw (Z.of_nat i) = Ok Xy.
Proof.
  intros Hfed.
  assert (constructed (base fed)) as Hcf.
  { right. by exists P, g, center, train, pooled, X, y, dbg, fed, g'. }
  apply constructed_lengths in Hcf.
  apply FedHeartDisease_init_Ok in Hfed as (raw & Hraw & _ & ->).
  destruct (HeartDiseaseRaw_init_lengths P _ _ _ _ _ _ Hraw) as (Hl & Hc & Hs).
  set (cs := [split_name train]) in *.
  set (cc := if pooled then [0; 1; 2; 3] else [center]) in *.
  pose proof (length_view_mask raw cs cc Hc Hs) as Hm.
  exists raw, (pick (view_mask raw cs cc) (seq 0 (length (features raw)))).
  split_and!; [done|apply pick_seq_sorted| |].
  - unfold len. simpl. rewrite <- Hl at 1. by rewrite length_pick_seq.
  - intros k i Hk.
    pose proof Hk as (j & -> & Hj & HX)%pick_lookup.
    rewrite <- Hl in Hk. apply pick_lookup in Hk as (j' & Hjj & _ & Hy).
    assert (j' = j) as -> by lia. clear Hjj. simpl.
    apply lookup_lt_Some in Hj. rewrite Hm in Hj.
    destruct (lookup_lt_is_Some_2 (features raw) j) as [Xj HXj]; [lia|].
    destruct (lookup_lt_is_Some_2 (labels raw) j) as [yj Hyj]; [lia|].
    split; [unfold len; lia|]. exists (Xj, yj). split.
    + apply getitem_lookup; [done| |]; simpl; congruence.
    + by apply getitem_lookup.
Qed.

Lemma X6_view_getitem_mirrors_base_witness :
  FedHeartDisease_init Demo.platform 0 1 false false float32 int64 false
    = Ok (Demo.fed, Demo.raw_rng)
  ∧ ∃ kept,
      StronglySorted Nat.lt kept
      ∧ Z.of_nat (length kept) = len (base Demo.fed)
      ∧ ∀ k i, kept !! k = Some i →
          ∃ Xy, getitem (base Demo.fed) (Z.of_nat k) = Ok Xy
                ∧ getitem Demo.raw (Z.of_nat i) = Ok Xy.
Proof.
  split; [apply demo_fed_init|].
  destruct (X6_view_getitem_mirrors_base Demo.platform 0 1 false false
              float32 int64 false Demo.fed Demo.raw_rng (demo_fed_init 0))
    as (raw & kept & Hraw & Hsorted & Hlen & Hkept).
  rewrite (demo_raw_init 0) in Hraw. injection Hraw as <-.
  exists kept. split; [exact Hsorted|]. split; [exact Hlen|].
  intros k i Hk. exact (proj2 (Hkept k i Hk)).
Defined.

(** ** The body of the loop, step by step *)

Lemma mem_nat_elem_of (x : nat) (l : list nat) : mem_nat x l = true ↔ x ∈ l.
Proof.
  unfold mem_nat. rewrite existsb_exists. split.
  - intros (z & Hz & ->%Nat.eqb_eq). by apply list_elem_of_In.
  - intros Hx. exists x. split; [by apply list_elem_of_In | apply Nat.eqb_refl].
Qed.

Lemma mem_nat_seq (j w : nat) : mem_nat j (seq 0 w) = true ↔ (j < w)%nat.
Proof. rewrite mem_nat_elem_of, elem_of_seq. lia. Qed.

Lemma read_csv_intro (ls : list (list cell)) :
  ls ≠ [] →
  Forall (λ l, (length l ≤ length (hd [] ls))%nat) ls →
  read_csv ls
  = Ok (mkFrame (seq 0 (length (hd [] ls)))
          ((λ l, l ++ replicate (length (hd [] ls) - length l) Empty) <$> ls)).
Proof.
  intros Hne Hlen. unfold read_csv. destruct ls as [|first rest]; [done|].
  simpl hd in *.
  assert (forallb (λ l, Nat.leb (length l) (length first)) (first :: rest)
          = true) as ->; [|done].
  apply forallb_forall. intros l Hl%list_elem_of_In.
  rewrite Forall_forall in Hlen. apply Nat.leb_le. by apply Hlen.
Qed.

(** The columns 10, 11 and 12 can be dropped when there are 13 columns. *)
Lemma df_drop_Ok_iff {A : Type} (w : nat) (rows_ : list (list A)) :
  (∃ df', df_drop [10; 11; 12]%nat (mkFrame (seq 0 w) rows_) = Ok df')
  ↔ (13 ≤ w)%nat.
Proof.
  unfold df_drop. simpl columns.
  destruct (forallb _ [10; 11; 12]%nat) eqn:Hall.
  - split; [intros _|by eexists].
    rewrite forallb_forall in Hall.
    specialize (Hall 12%nat ltac:(simpl; auto)). apply mem_nat_seq in Hall. lia.
  - split; [by intros [? ?]|]. intros Hw.
    assert (forallb (λ l, mem_nat l (seq 0 w)) [10; 11; 12]%nat = true);
      [|congruence].
    apply forallb_forall. intros j Hj. apply mem_nat_seq.
    simpl in Hj. lia.
Qed.

(** The columns that remain after the drop: the first ten and those from
    13 on. *)
Lemma kept_columns (w : nat) :
  (13 ≤ w)%nat →
  List.filter (λ c, negb (mem_nat c [10; 11; 12]%nat)) (seq 0 w)
  = seq 0 10 ++ seq 13 (w - 13).
Proof.
  intros Hw. replace w with (13 + (w - 13))%nat at 1 by lia.
  rewrite seq_app, List.filter_app. f_equal.
  apply filter_all. intros c Hc%elem_of_seq. unfold mem_nat. simpl.
  destruct (Nat.eqb_spec c 10), (Nat.eqb_spec c 11), (Nat.eqb_spec c 12);
    try lia; done.
Qed.

(** The columns of the features of a file hold the two encoded columns. *)
Lemma feature_columns_encoded (w : nat) :
  (13 ≤ w)%nat →
  forallb (λ c, mem_nat c (removelast (seq 0 10 ++ seq 13 (w - 13))))
    [2; 6]%nat = true.
Proof.
  intros Hw. destruct (seq 13 (w - 13)) as [|c l] eqn:Hseq; [done|].
  rewrite removelast_app by done. done.
Qed.

Lemma mem_nat_pd_concat (c : nat) (a b : DataFrame value) :
  mem_nat c (columns (pd_concat a b))
  = mem_nat c (columns a) || mem_nat c (columns b).
Proof.
  unfold pd_concat, mem_nat. simpl. rewrite existsb_app.
  destruct (existsb (Nat.eqb c) (columns a)) eqn:Ha; [done|]. simpl.
  induction (columns b) as [|x l IH]; [done|]. simpl.
  destruct (existsb (Nat.eqb x) (columns a)) eqn:Hx; simpl; rewrite IH.
  - destruct (Nat.eqb_spec c x) as [->|]; [congruence|done].
  - done.
Qed.

Lemma pd_concat_rectangular (a b : DataFrame value) :
  rectangular (pd_concat a b).
Proof.
  unfold rectangular, pd_concat, reindex. simpl.
  apply Forall_app. split; apply Forall_fmap, Forall_forall; intros r _;
    simpl; by rewrite length_fmap.
Qed.

Lemma length_select_columns {A : Type} (keep : nat → bool) (cols : list nat)
    (r : list A) :
  length r = length cols →
  length (select_columns keep cols r) = length (List.filter keep cols).
Proof.
  unfold select_columns. rewrite length_fmap.
  revert r. induction cols as [|c cols IH]; intros [|x r] Hlen;
    simpl in *; try done.
  destruct (keep c); simpl; rewrite IH; lia.
Qed.

(** The rows of the encoded frame all have the same width. *)
Lemma get_dummies_width (df : DataFrame value) (cols : list nat)
    (encoded : list (list value)) :
  rectangular df →
  get_dummies df cols = Ok encoded →
  ∃ w, Forall (λ r, length r = w) encoded.
Proof.
  unfold rectangular, get_dummies. intros Hrect.
  destruct (forallb _ cols); [|discriminate]. intros [= <-].
  set (cats := λ c : nat,
         tail (categories ((λ r, at_label (columns df) r c) <$> data df))).
  exists (length (List.filter (λ c, negb (mem_nat c cols)) (columns df))
          + length (flat_map cats cols))%nat.
  apply Forall_fmap, Forall_forall. intros r Hr. simpl.
  rewrite Forall_forall in Hrect.
  rewrite length_app, length_select_columns by by apply Hrect.
  f_equal. clear. induction cols as [|c cols IH]; [done|].
  simpl. by rewrite !length_app, length_fmap, IH.
Qed.

(** The last field that remains of a line with as many fields as columns,
    from the column 14 on. *)
Lemma last_kept_field (w : nat) (l : list cell) :
  (14 ≤ w)%nat →
  length l = w →
  default None
    (last (select_columns (λ c, negb (mem_nat c [10; 11; 12]%nat)) (seq 0 w)
             (replace_qmark <$> l)))
  = default None (replace_qmark <$> last l).
Proof.
  intros Hw Hlen. destruct w as [|w]; [lia|].
  destruct (last l) as [x|] eqn:Hlast.
  - apply last_Some in Hlast as [l' ->].
    rewrite length_app in Hlen. simpl in Hlen.
    rewrite seq_S, fmap_app. unfold select_columns.
    rewrite zip_with_app by (rewrite length_fmap, length_seq; lia).
    rewrite List.filter_app, fmap_app.
    assert (negb (mem_nat (0 + w) [10; 11; 12]%nat) = true) as Hkeep.
    { unfold mem_nat. simpl.
      destruct (Nat.eqb_spec w 10), (Nat.eqb_spec w 11), (Nat.eqb_spec w 12);
        try lia; done. }
    cbn [fmap list_fmap zip_with List.filter fst]. rewrite Hkeep.
    cbn [fmap list_fmap snd]. by rewrite last_snoc.
  - apply last_None in Hlast. subst l. simpl in Hlen. lia.
Qed.

Lemma df_drop_Ok {A : Type} (labels_ : list nat) (df df' : DataFrame A) :
  df_drop labels_ df = Ok df' →
  columns df' = List.filter (λ c, negb (mem_nat c labels_)) (columns df)
  ∧ data df'
    = select_columns (λ c, negb (mem_nat c labels_)) (columns df) <$> data df.
Proof.
  unfold df_drop. destruct (forallb _ labels_); [|discriminate].
  by intros [= <-].
Qed.

(** A retained line of a table with at least 14 columns has a field under
    every column, the last of which is a number. *)
Lemma retained_line_full (w : nat) (l : list cell) :
  (14 ≤ w)%nat →
  (length l ≤ w)%nat →
  retained_line w l = true →
  length l = w ∧ ∃ q, last l = Some (Num q).
Proof.
  intros Hw Hlen Hret. unfold retained_line in Hret.
  rewrite forallb_forall in Hret.
  specialize (Hret (w - 1)%nat ltac:(apply in_seq; lia)).
  assert (mem_nat (w - 1) [10; 11; 12]%nat = false) as Hout.
  { unfold mem_nat. simpl.
    destruct (Nat.eqb_spec (w - 1) 10), (Nat.eqb_spec (w - 1) 11),
      (Nat.eqb_spec (w - 1) 12); try lia; done. }
  rewrite Hout in Hret. simpl in Hret.
  destruct (l !! (w - 1)%nat) as [[q| |]|] eqn:Hl; try done.
  pose proof (lookup_lt_Some _ _ _ Hl) as Hlt.
  assert (length l = w) as Hw' by lia. split; [done|].
  exists q. rewrite last_lookup. by replace (pred (length l)) with (w - 1)%nat by lia.
Qed.

(** The labels the loop reads in a file with at least 14 columns are the
    last fields of its retained lines. *)
Lemma file_labels_spec (f : data_file) (df : DataFrame cell)
    (df' : DataFrame value) (ys : list value) :
  (14 ≤ width f)%nat →
  read_csv (lines f) = Ok df →
  df_drop [10; 11; 12]%nat (replace df) = Ok df' →
  iloc_last (dropna df') = Ok ys →
  ys = file_labels f.
Proof.
  intros Hw (Hlen & Hcols & Hdata)%read_csv_Ok (_ & Hdata')%df_drop_Ok Hys.
  unfold iloc_last in Hys.
  destruct (columns (dropna df')) as [|c0 cols0]; [discriminate|].
  injection Hys as <-.
  unfold dropna, file_labels, replace in *. simpl in *. fold (width f) in *.
  rewrite Hdata', Hcols, Hdata.
  rewrite <- !list_fmap_compose, filter_fmap, <- list_fmap_compose.
  rewrite Forall_forall in Hlen.
  erewrite filter_ext_elem; last first.
  { intros l Hl. simpl.
    rewrite (kept_fields_number _ _ 0%nat l (Hlen l Hl)).
    apply forallb_ext_elem. intros j _.
    rewrite Nat.sub_0_r, negb_involutive. reflexivity. }
  apply list_fmap_ext. intros i l Hl%list_elem_of_lookup_2.
  apply list_elem_of_In, filter_In in Hl as [Hl%list_elem_of_In Hret].
  destruct (retained_line_full _ l Hw (Hlen l Hl) Hret) as (Hfull & q & Hq).
  simpl. rewrite Hfull, Nat.sub_diag. simpl. rewrite app_nil_r.
  rewrite last_kept_field by done.
  unfold label_of_line. by rewrite Hq.
Qed.

Section LoopFacts.

Context (P : Platform).

Lemma load_center_inv (st st' : loading P) (f : data_file) :
  load_center P st f = Ok st' →
  ∃ name c df df' ys,
    py_index (split_dot (basename f)) 1 = Ok name
    ∧ read_csv (lines f) = Ok df
    ∧ df_drop [10; 11; 12]%nat (replace df) = Ok df'
    ∧ iloc_last (dropna df') = Ok ys
    ∧ dict_get centers_number name = Ok c
    ∧ ld_features st'
      = pd_concat (ld_features st) (iloc_but_last (dropna df'))
    ∧ ld_labels st' = ld_labels st ++ ys
    ∧ ld_centers st' = ld_centers st ++ replicate (retained_count f) c.
Proof.
  unfold load_center. intros Hload.
  apply bind_Ok in Hload as (name & Hname & Hload).
  apply bind_Ok in Hload as (df & Hread & Hload).
  apply bind_Ok in Hload as (df' & Hdrop & Hload).
  apply bind_Ok in Hload as (ys & Hy & Hload).
  apply bind_Ok in Hload as (c & Hc & Hload).
  rewrite draw_sets_spec in Hload. injection Hload as <-.
  exists name, c, df, df', ys. simpl.
  by rewrite shape0_iloc_but_last, (dropna_count f df df' Hread Hdrop).
Qed.

Lemma load_center_readable (st st' : loading P) (f : data_file) :
  load_center P st f = Ok st' → readable f.
Proof.
  intros (name & c & df & df' & ys & Hname & Hread & Hdrop & _ & Hc & _)
           %load_center_inv.
  split_and!.
  - exists c. unfold center_of. by rewrite Hname.
  - intros Hnil. by rewrite Hnil in Hread.
  - by apply read_csv_Ok in Hread as (? & _).
  - apply read_csv_Ok in Hread as (_ & Hcols & _).
    apply (df_drop_Ok_iff (width f)
             ((λ row : list cell, replace_qmark <$> row) <$> data df)).
    exists df'. rewrite <- Hdrop. unfold replace. by rewrite Hcols.
Qed.

Lemma load_center_total (st : loading P) (f : data_file) :
  readable f → ∃ st', load_center P st f = Ok st'.
Proof.
  intros ([c Hc] & Hne & Hlen & Hw). unfold load_center.
  unfold center_of in Hc. apply bind_Ok in Hc as (name & -> & Hc).
  cbn [bind]. rewrite (read_csv_intro _ Hne Hlen). cbn [bind].
  fold (width f).
  destruct (proj2 (df_drop_Ok_iff (width f)
                     ((λ row : list cell, replace_qmark <$> row)
                        <$> ((λ l, l ++ replicate (width f - length l) Empty)
                               <$> lines f))) Hw)
    as [df' Hdrop].
  unfold replace. cbn [columns data]. rewrite Hdrop. cbn [bind].
  apply df_drop_Ok in Hdrop as [Hcols _]. cbn [columns] in Hcols.
  rewrite kept_columns in Hcols by done.
  unfold iloc_last. cbn [dropna columns]. rewrite Hcols. cbn [app seq bind].
  rewrite Hc. cbn [bind]. rewrite draw_sets_spec. by eexists.
Qed.

Lemma load_center_columns (st st' : loading P) (f : data_file) :
  load_center P st f = Ok st' →
  forallb (λ c, mem_nat c (columns (ld_features st'))) [2; 6]%nat = true.
Proof.
  intros Hload. pose proof (load_center_readable _ _ _ Hload) as (_ & _ & _ & Hw).
  apply load_center_inv in Hload
    as (name & c & df & df' & ys & _ & Hread & Hdrop & _ & _ & -> & _).
  apply read_csv_Ok in Hread as (_ & Hcols & _).
  apply df_drop_Ok in Hdrop as [Hcols' _].
  unfold replace in Hcols'. cbn [columns] in Hcols'.
  rewrite Hcols, kept_columns in Hcols' by done.
  pose proof (feature_columns_encoded _ Hw) as Henc.
  apply forallb_forall. intros j Hj. rewrite forallb_forall in Henc.
  rewrite mem_nat_pd_concat. apply orb_true_iff. right.
  unfold iloc_but_last, dropna. cbn [columns]. rewrite Hcols'.
  by apply Henc.
Qed.

Lemma load_centers_columns_grow (st st' : loading P) (files : list data_file) :
  load_centers P st files = Ok st' →
  forallb (λ c, mem_nat c (columns (ld_features st))) [2; 6]%nat = true →
  forallb (λ c, mem_nat c (columns (ld_features st'))) [2; 6]%nat = true.
Proof.
  revert st. induction files as [|f files IH]; intros st Hload Hst;
    simpl in Hload.
  - by injection Hload as <-.
  - apply bind_Ok in Hload as (st1 & Hf & Hload).
    apply (IH st1 Hload). by eapply load_center_columns.
Qed.

(** What the loop leaves after a list of files. *)
Lemma load_centers_inv (st st' : loading P) (files : list data_file) :
  load_centers P st files = Ok st' →
  Forall readable files
  ∧ (files ≠ [] →
     forallb (λ c, mem_nat c (columns (ld_features st'))) [2; 6]%nat = true)
  ∧ (rectangular (ld_features st) → rectangular (ld_features st'))
  ∧ ∃ ids yss,
      Forall2 (λ f c, center_of f = Ok c) files ids
      ∧ Forall2 (λ f ys, (14 ≤ width f)%nat → ys = file_labels f) files yss
      ∧ ld_centers st'
        = ld_centers st
          ++ mjoin (zip_with (λ f c, replicate (retained_count f) c)
                      files ids)
      ∧ ld_labels st' = ld_labels st ++ mjoin yss.
Proof.
  revert st. induction files as [|f files IH]; intros st Hload;
    simpl in Hload.
  - injection Hload as <-. split_and!; [done..|].
    exists [], []. simpl. by rewrite !app_nil_r.
  - apply bind_Ok in Hload as (st1 & Hf & Hload).
    destruct (IH st1 Hload) as (Hread & _ & Hrect & ids & yss & Hids & Hyss
                                & Hc & Hl).
    pose proof (load_center_readable _ _ _ Hf) as Hreadable.
    pose proof (load_center_columns _ _ _ Hf) as Hcols.
    destruct (load_center_inv _ _ _ Hf)
      as (name & c & df & df' & ys & Hname & Hcsv & Hdrop & Hys & Hcenter
          & Hfeat & Hlab & Hcen).
    split_and!.
    + by constructor.
    + intros _. by eapply load_centers_columns_grow.
    + intros _. apply Hrect. rewrite Hfeat. apply pd_concat_rectangular.
    + exists (c :: ids), (ys :: yss). split_and!.
      * constructor; [|done]. unfold center_of. by rewrite Hname.
      * constructor; [|done]. intros Hw. by eapply file_labels_spec.
      * rewrite Hc, Hcen. simpl. by rewrite <- app_assoc.
      * rewrite Hl, Hlab. simpl. by rewrite <- app_assoc.
Qed.


End LoopFacts.

Lemma split_dot_prefix (p rest : string) :
  dot_free p = true →
  split_dot (String.append p (String "."%char rest)) = p :: split_dot rest.
Proof.
  induction p as [|ch p IH]; intros Hp; simpl in *.
  - done.
  - apply andb_true_iff in Hp as [Hch Hp].
    destruct (Ascii.eqb ch "."%char); [done|]. by rewrite IH.
Qed.

Lemma split_dot_dot_free (p : string) :
  dot_free p = true → split_dot p = [p].
Proof.
  induction p as [|ch p IH]; intros Hp; simpl in *; [done|].
  apply andb_true_iff in Hp as [Hch Hp].
  destruct (Ascii.eqb ch "."%char); [done|]. by rewrite IH.
Qed.



(** X8: when the directory holds no data file, both constructors raise
    [KeyError]: the columns to encode are missing from the empty table. *)
Theorem X8_empty_directory_raises (P : Platform) (g : rng_state P)
    (center : Z) (train pooled : bool) (X y : dtype) (dbg : bool)
    (path : string) :
  check_dataset_from_config P "fed_heart_disease" dbg = Ok path →
  glob_data P path = [] →
  HeartDiseaseRaw_init P g X y dbg = Raise KeyError
  ∧ FedHeartDisease_init P g center train pooled X y dbg = Raise KeyError.
Proof.
  intros Hpath Hnil.
  assert (HeartDiseaseRaw_init P g X y dbg = Raise KeyError) as Hraw.
  { unfold HeartDiseaseRaw_init. rewrite Hpath. cbn [bind]. by rewrite Hnil. }
  split; [done|]. by rewrite FedHeartDisease_init_eq, Hraw.
Qed.

Lemma X8_empty_directory_raises_witness :
  check_dataset_from_config Demo.empty_directory "fed_heart_disease" false
    = Ok "nowhere"
  ∧ glob_data Demo.empty_directory "nowhere" = []
  ∧ HeartDiseaseRaw_init Demo.empty_directory 0 float32 int64 false
    = Raise KeyError
  ∧ FedHeartDisease_init Demo.empty_directory 0 0 true false
      float32 int64 false = Raise KeyError.
Proof.
  split; [reflexivity|]. split; [reflexivity|].
  exact (X8_empty_directory_raises Demo.empty_directory 0 0 true false
           float32 int64 false "nowhere" eq_refl eq_refl).
Defined.

(** X9: the center of a file is looked up under the second token of its
    base name, the tokens being separated by dots: a name made of two or
    more tokens gives the center of the second one, whether a known one or
    [KeyError], and a name without a dot raises [IndexError]. *)
Theorem X9_center_from_second_token (p c rest : string)
    (ls : list (list cell)) :
  dot_free p = true →
  dot_free c = true →
  center_of (mkFile (String.append p (String "."%char
                       (String.append c (String "."%char rest)))) ls)
  = dict_get centers_number c
  ∧ center_of (mkFile (String.append p (String "."%char c)) ls)
    = dict_get centers_number c
  ∧ center_of (mkFile p ls) = Raise IndexError
  ∧ (dict_get centers_number c = Raise KeyError
     ∨ (c ∈ ["cleveland"; "hungarian"; "switzerland"; "va"]
        ∧ ∃ z, dict_get centers_number c = Ok z ∧ z ∈ [0; 1; 2; 3])).
Proof.
  intros Hp Hc. unfold center_of. simpl basename. split_and!.
  - rewrite (split_dot_prefix p _ Hp), (split_dot_prefix c _ Hc).
    pose proof (py_index_lookup (p :: c :: split_dot rest) 1 c eq_refl) as Hi.
    change (Z.of_nat 1) with 1 in Hi. by rewrite Hi.
  - by rewrite (split_dot_prefix p _ Hp), (split_dot_dot_free c Hc).
  - by rewrite (split_dot_dot_free p Hp).
  - unfold dict_get, centers_number.
    destruct (_ !! c) as [z|] eqn:Hz; [right|by left].
    repeat (apply lookup_insert_Some in Hz as [[<- <-]|[_ Hz]];
            [split; [set_solver|eexists; split; [done|set_solver]]|]).
    by rewrite lookup_empty in Hz.
Qed.

Lemma X9_center_from_second_token_witness :
  (dot_free "processed" = true ∧ dot_free "va" = true)
  ∧ center_of (mkFile "processed.va.data" []) = Ok 3
  ∧ center_of (mkFile "processed" []) = Raise IndexError.
Proof.
  split; [by split|].
  destruct (X9_center_from_second_token "processed" "va" "data" []
              eq_refl eq_refl) as (Hthree & _ & Hnone & _).
  split; [exact Hthree | exact Hnone].
Defined.

Lemma Forall2_labels (files : list data_file) (yss : list (list value)) :
  Forall (λ f, (14 ≤ width f)%nat) files →
  Forall2 (λ f ys, (14 ≤ width f)%nat → ys = file_labels f) files yss →
  yss = file_labels <$> files.
Proof.
  intros Hw Hyss. induction Hyss as [|f ys files yss Hf _ IH]; [done|].
  apply Forall_cons in Hw as [Hwf Hw]. rewrite fmap_cons.
  f_equal; [by apply Hf | by apply IH].
Qed.

(** X10: the centers of the raw dataset follow the files: each file
    contributes, in the order of the files, its center once per retained
    line. *)
Theorem X10_centers_follow_files (P : Platform) (g : rng_state P)
    (X y : dtype) (dbg : bool) (raw : HeartDiseaseRaw) (g' : rng_state P) :
  HeartDiseaseRaw_init P g X y dbg = Ok (raw, g') →
  ∃ ids,
    Forall2 (λ f c, center_of f = Ok c) (glob_data P (data_dir raw)) ids
    ∧ centers raw
      = mjoin (zip_with (λ f c, replicate (retained_count f) c)
                 (glob_data P (data_dir raw)) ids).
Proof.
  intros (path & st & encoded & _ & Hst & _ & _ & -> & _)
           %HeartDiseaseRaw_init_Ok.
  apply load_centers_inv in Hst
    as (_ & _ & _ & ids & yss & Hids & _ & Hc & _).
  exists ids. by split.
Qed.

Lemma X10_centers_follow_files_witness :
  HeartDiseaseRaw_init Demo.platform 0 float32 int64 false
    = Ok (Demo.raw, Demo.raw_rng)
  ∧ ∃ ids,
      Forall2 (λ f c, center_of f = Ok c)
        [Demo.cleveland; Demo.hungarian; Demo.switzerland; Demo.va] ids
      ∧ centers Demo.raw
        = mjoin (zip_with (λ f c, replicate (retained_count f) c)
                   [Demo.cleveland; Demo.hungarian; Demo.switzerland; Demo.va]
                   ids).
Proof.
  split; [apply demo_raw_init|].
  exact (X10_centers_follow_files Demo.platform 0 float32 int64 false
           Demo.raw Demo.raw_rng (demo_raw_init 0)).
Defined.

(** X11: when every file has at least 14 columns, the labels of the raw
    dataset are, in the order of the files and of the lines, the last fields
    of the retained lines, binarised and converted to [X_dtype]. *)
Theorem X11_labels_follow_lines (P : Platform) (g : rng_state P)
    (X y : dtype) (dbg : bool) (raw : HeartDiseaseRaw) (g' : rng_state P) :
  HeartDiseaseRaw_init P g X y dbg = Ok (raw, g') →
  Forall (λ f, (14 ≤ width f)%nat) (glob_data P (data_dir raw)) →
  labels raw
  = stored_label X <$> mjoin (file_labels <$> glob_data P (data_dir raw)).
Proof.
  intros (path & st & encoded & _ & Hst & _ & _ & -> & _)
           %HeartDiseaseRaw_init_Ok Hw.
  apply load_centers_inv in Hst
    as (_ & _ & _ & ids & yss & _ & Hyss & _ & Hl).
  simpl in *. by rewrite Hl, (Forall2_labels _ _ Hw Hyss).
Qed.

Lemma X11_labels_follow_lines_witness :
  HeartDiseaseRaw_init Demo.platform 0 float32 int64 false
    = Ok (Demo.raw, Demo.raw_rng)
  ∧ Forall (λ f, (14 ≤ width f)%nat)
      (glob_data Demo.platform (data_dir Demo.raw))
  ∧ labels Demo.raw
    = stored_label float32
        <$> mjoin (file_labels
                     <$> glob_data Demo.platform (data_dir Demo.raw)).
Proof.
  assert (Forall (λ f, (14 ≤ width f)%nat)
            (glob_data Demo.platform (data_dir Demo.raw))) as Hw.
  { repeat constructor. }
  split; [apply demo_raw_init|]. split; [exact Hw|].
  exact (X11_labels_follow_lines Demo.platform 0 float32 int64 false
           Demo.raw Demo.raw_rng (demo_raw_init 0) Hw).
Defined.

(** X12: the feature tensors of a raw dataset all have the dtype [X_dtype]
    and the same number of elements, and so do those of every view of it. *)
Theorem X12_features_one_width_one_dtype (P : Platform) (g : rng_state P)
    (X y : dtype) (dbg : bool) (raw : HeartDiseaseRaw) (g' : rng_state P) :
  HeartDiseaseRaw_init P g X y dbg = Ok (raw, g') →
  ∃ w,
    Forall (λ t, t_dtype t = X ∧ length (t_elems t) = w) (features raw)
    ∧ ∀ center train pooled fed g'',
        FedHeartDisease_init P g center train pooled X y dbg = Ok (fed, g'') →
        Forall (λ t, t_dtype t = X ∧ length (t_elems t) = w)
          (features (base fed)).
Proof.
  intros Hraw.
  destruct (HeartDiseaseRaw_init_Ok P _ _ _ _ _ _ Hraw)
    as (path & st & encoded & _ & Hst & _ & Henc & Heq & _).
  apply load_centers_inv in Hst as (_ & _ & Hrect & _).
  destruct (get_dummies_width _ _ _ (Hrect ltac:(by constructor)) Henc)
    as [w Hw].
  exists w.
  assert (Forall (λ t, t_dtype t = X ∧ length (t_elems t) = w) (features raw))
    as Hfeat.
  { subst raw. simpl. apply Forall_fmap. eapply Forall_impl; [exact Hw|].
    intros r Hr. simpl. by rewrite length_fmap. }
  split; [done|].
  intros center train pooled fed g'' (raw' & Hraw' & _ & ->)
           %FedHeartDisease_init_Ok.
  rewrite Hraw in Hraw'. injection Hraw' as <- _. simpl.
  apply Forall_forall. intros t Ht. rewrite Forall_forall in Hfeat.
  apply Hfeat. eapply elem_of_sublist; [done | apply pick_sublist].
Qed.

Lemma X12_features_one_width_one_dtype_witness :
  HeartDiseaseRaw_init Demo.platform 0 float32 int64 false
    = Ok (Demo.raw, Demo.raw_rng)
  ∧ ∃ w, Forall (λ t, t_dtype t = float32 ∧ length (t_elems t) = w)
           (features Demo.raw)
         ∧ Forall (λ t, t_dtype t = float32 ∧ length (t_elems t) = w)
             (features (base Demo.fed)).
Proof.
  split; [apply demo_raw_init|].
  destruct (X12_features_one_width_one_dtype Demo.platform 0
              float32 int64 false Demo.raw Demo.raw_rng (demo_raw_init 0))
    as (w & Hraw & Hviews).
  exists w. split; [exact Hraw|].
  exact (Hviews 1 false false Demo.fed Demo.raw_rng (demo_fed_init 0)).
Defined.

(** ** The exceptions of the loop *)

Section LoopErrors.

Context (P : Platform).

Lemma load_center_name_without_dot (st : loading P) (f : data_file) :
  dot_free (basename f) = true →
  load_center P st f = Raise IndexError.
Proof.
  intros Hname. unfold load_center.
  by rewrite (split_dot_dot_free _ Hname).
Qed.

Lemma load_center_no_line (st : loading P) (f : data_file) (name : string) :
  py_index (split_dot (basename f)) 1 = Ok name →
  lines f = [] →
  load_center P st f = Raise EmptyDataError.
Proof. intros Hname Hnil. unfold load_center. by rewrite Hname, Hnil. Qed.

Lemma load_center_long_line (st : loading P) (f : data_file) (name : string) :
  py_index (split_dot (basename f)) 1 = Ok name →
  Exists (λ l, (width f < length l)%nat) (lines f) →
  load_center P st f = Raise ParserError.
Proof.
  intros Hname Hlong. unfold load_center. rewrite Hname. cbn [bind].
  unfold read_csv, width in *.
  destruct (lines f) as [|first rest] eqn:Hlines.
  { by apply Exists_nil in Hlong. }
  simpl hd in Hlong.
  destruct (forallb _ (first :: rest)) eqn:Hall; [|done].
  rewrite forallb_forall in Hall.
  apply Exists_exists in Hlong as (l & Hl%list_elem_of_In & Hlt).
  apply Hall, Nat.leb_le in Hl. lia.
Qed.

Lemma load_center_few_columns (st : loading P) (f : data_file) (name : string) :
  py_index (split_dot (basename f)) 1 = Ok name →
  lines f ≠ [] →
  Forall (λ l, (length l ≤ width f)%nat) (lines f) →
  (width f < 13)%nat →
  load_center P st f = Raise KeyError.
Proof.
  intros Hname Hne Hlen Hw. unfold load_center. rewrite Hname. cbn [bind].
  rewrite (read_csv_intro _ Hne Hlen). cbn [bind]. fold (width f).
  unfold replace. cbn [columns data].
  destruct (df_drop _ _) as [df'|e] eqn:Hdrop.
  - assert (13 ≤ width f)%nat; [|lia].
    eapply df_drop_Ok_iff. by eexists.
  - unfold df_drop in Hdrop. by destruct (forallb _ _); simplify_eq.
Qed.

Lemma load_center_unknown_center (st : loading P) (f : data_file)
    (name : string) (e : exn) :
  py_index (split_dot (basename f)) 1 = Ok name →
  lines f ≠ [] →
  Forall (λ l, (length l ≤ width f)%nat) (lines f) →
  (13 ≤ width f)%nat →
  dict_get centers_number name = Raise e →
  load_center P st f = Raise KeyError ∧ e = KeyError.
Proof.
  intros Hname Hne Hlen Hw Hc. unfold load_center. rewrite Hname.
  cbn [bind]. rewrite (read_csv_intro _ Hne Hlen). cbn [bind].
  fold (width f).
  destruct (proj2 (df_drop_Ok_iff (width f)
                     ((λ row : list cell, replace_qmark <$> row)
                        <$> ((λ l, l ++ replicate (width f - length l) Empty)
                               <$> lines f))) Hw)
    as [df' Hdrop].
  unfold replace. cbn [columns data]. rewrite Hdrop. cbn [bind].
  apply df_drop_Ok in Hdrop as [Hcols _]. cbn [columns] in Hcols.
  rewrite kept_columns in Hcols by done.
  unfold iloc_last. cbn [dropna columns]. rewrite Hcols. cbn [app seq bind].
  rewrite Hc. cbn [bind].
  unfold dict_get in Hc. destruct (centers_number !! name); by simplify_eq.
Qed.

Lemma load_centers_first_failure (st : loading P)
    (good : list data_file) (bad : data_file) (rest : list data_file)
    (e : exn) :
  Forall readable good →
  (∀ st0, load_center P st0 bad = Raise e) →
  load_centers P st (good ++ bad :: rest) = Raise e.
Proof.
  intros Hgood Hbad. revert st.
  induction Hgood as [|f good Hf _ IH]; intros st; simpl.
  - by rewrite Hbad.
  - destruct (load_center_total P st f Hf) as [st1 ->]. cbn [bind]. apply IH.
Qed.

End LoopErrors.

Lemma demo_cleveland_readable : readable Demo.cleveland.
Proof.
  split_and!.
  - by exists 0.
  - done.
  - repeat constructor.
  - unfold width. simpl. lia.
Qed.

(** X13: the first file of the directory that the loop cannot go through
    decides the exception of both constructors: when the files before it
    are readable, what the body of the loop raises on it is what the
    constructors raise, whatever comes after it. *)
Theorem X13_first_unreadable_file_decides (P : Platform) (g : rng_state P)
    (center : Z) (train pooled : bool) (X y : dtype) (dbg : bool)
    (path : string) (good : list data_file) (bad : data_file)
    (rest : list data_file) (e : exn) :
  check_dataset_from_config P "fed_heart_disease" dbg = Ok path →
  glob_data P path = good ++ bad :: rest →
  Forall readable good →
  (∀ st, load_center P st bad = Raise e) →
  HeartDiseaseRaw_init P g X y dbg = Raise e
  ∧ FedHeartDisease_init P g center train pooled X y dbg = Raise e.
Proof.
  intros Hpath Hfiles Hgood Hbad.
  assert (HeartDiseaseRaw_init P g X y dbg = Raise e) as Hraw.
  { unfold HeartDiseaseRaw_init. rewrite Hpath. cbn [bind].
    by rewrite Hfiles, (load_centers_first_failure P _ _ _ _ _ Hgood Hbad). }
  split; [done|]. by rewrite FedHeartDisease_init_eq, Hraw.
Qed.

Lemma X13_first_unreadable_file_decides_witness :
  (check_dataset_from_config Demo.broken "fed_heart_disease" false
     = Ok "broken"
   ∧ glob_data Demo.broken "broken"
     = [Demo.cleveland] ++ Demo.notes :: [Demo.va]
   ∧ Forall readable [Demo.cleveland]
   ∧ ∀ st, load_center Demo.broken st Demo.notes = Raise KeyError)
  ∧ HeartDiseaseRaw_init Demo.broken 0 float32 int64 false = Raise KeyError
  ∧ FedHeartDisease_init Demo.broken 0 0 true false float32 int64 false
    = Raise KeyError.
Proof.
  assert (Forall readable [Demo.cleveland]) as Hgood.
  { constructor; [apply demo_cleveland_readable | constructor]. }
  assert (∀ st, load_center Demo.broken st Demo.notes = Raise KeyError)
    as Hbad.
  { intros st.
    refine (proj1 (load_center_unknown_center Demo.broken st Demo.notes
                     "data" KeyError eq_refl _ _ _ eq_refl)).
    - done.
    - repeat constructor.
    - unfold width. simpl. lia. }
  split; [by split_and!|].
  exact (X13_first_unreadable_file_decides Demo.broken 0 0 true false
           float32 int64 false "broken" [Demo.cleveland] Demo.notes
           [Demo.va] KeyError eq_refl eq_refl Hgood Hbad).
Defined.

(** X14: what the body of the loop raises on a file, whatever has been
    read before: [IndexError] when the base name has no dot; otherwise
    [EmptyDataError] when the file has no line, [ParserError] when a line is
    longer than the first one, [KeyError] when the table has fewer than 13
    columns, and [KeyError] when the second token of the name is not a
    center name. *)
Theorem X14_exceptions_of_a_file (P : Platform) (st : loading P)
    (f : data_file) (name : string) :
  (dot_free (basename f) = true → load_center P st f = Raise IndexError)
  ∧ (py_index (split_dot (basename f)) 1 = Ok name →
     (lines f = [] → load_center P st f = Raise EmptyDataError)
     ∧ (Exists (λ l, (width f < length l)%nat) (lines f) →
        load_center P st f = Raise ParserError)
     ∧ (lines f ≠ [] →
        Forall (λ l, (length l ≤ width f)%nat) (lines f) →
        ((width f < 13)%nat → load_center P st f = Raise KeyError)
        ∧ ((13 ≤ width f)%nat →
           name ∉ ["cleveland"; "hungarian"; "switzerland"; "va"] →
           load_center P st f = Raise KeyError))).
Proof.
  split; [apply load_center_name_without_dot|].
  intros Hname. split_and!.
  - by apply load_center_no_line with name.
  - by apply load_center_long_line with name.
  - intros Hne Hlen. split.
    + by apply load_center_few_columns with name.
    + intros Hw Hunknown.
      destruct (dict_get centers_number name) as [c|e] eqn:Hc.
      * exfalso. apply Hunknown. unfold dict_get, centers_number in Hc.
        destruct (_ !! name) as [z|] eqn:Hz; [|discriminate].
        repeat (apply lookup_insert_Some in Hz as [[<- _]|[_ Hz]];
                [set_solver|]).
        by rewrite lookup_empty in Hz.
      * by apply (load_center_unknown_center P st f name e).
Qed.

Lemma X14_exceptions_of_a_file_witness :
  load_center Demo.platform
    (mkLoading Demo.platform (mkFrame [] []) [] [] [] 8)
    (mkFile "heart" []) = Raise IndexError
  ∧ load_center Demo.platform
      (mkLoading Demo.platform (mkFrame [] []) [] [] [] 8)
      (mkFile "processed.va.data" []) = Raise EmptyDataError
  ∧ load_center Demo.platform
      (mkLoading Demo.platform (mkFrame [] []) [] [] [] 8)
      (mkFile "processed.va.data" [[Num 1; Num 0; QMark]]) = Raise KeyError.
Proof.
  split_and!.
  - exact (proj1 (X14_exceptions_of_a_file Demo.platform _
                    (mkFile "heart" []) "none") eq_refl).
  - exact (proj1 (proj2 (X14_exceptions_of_a_file Demo.platform _
                           (mkFile "processed.va.data" []) "va") eq_refl)
             eq_refl).
  - refine (proj1 (proj2 (proj2 (proj2 (X14_exceptions_of_a_file Demo.platform
              _ (mkFile "processed.va.data" [[Num 1; Num 0; QMark]]) "va")
              eq_refl)) _ _) _).
    + done.
    + repeat constructor.
    + unfold width. simpl. lia.
Defined.

(** X15: the split of a record depends on its rank alone: of two raw
    datasets built on one platform, for instance in debug mode and in full,
    the sets of the shorter one are the first sets of the longer one. *)
Theorem X15_split_depends_on_rank (P : Platform) (g1 g2 : rng_state P)
    (X1 y1 X2 y2 : dtype) (dbg1 dbg2 : bool) (raw1 raw2 : HeartDiseaseRaw)
    (g1' g2' : rng_state P) :
  HeartDiseaseRaw_init P g1 X1 y1 dbg1 = Ok (raw1, g1') →
  HeartDiseaseRaw_init P g2 X2 y2 dbg2 = Ok (raw2, g2') →
  len raw1 ≤ len raw2 →
  sets raw1 `prefix_of` sets raw2
  ∧ ∀ i s, sets raw1 !! i = Some s → sets raw2 !! i = Some s.
Proof.
  intros (p1 & st1 & e1 & _ & _ & [_ Hl1 _ _ Hs1 _] & _ & -> & _)
           %HeartDiseaseRaw_init_Ok
         (p2 & st2 & e2 & _ & _ & [_ Hl2 _ _ Hs2 _] & _ & -> & _)
           %HeartDiseaseRaw_init_Ok.
  unfold len. simpl. rewrite !length_fmap, Hl1, Hl2. intros Hle.
  assert (ld_sets st1 `prefix_of` ld_sets st2) as Hprefix.
  { rewrite Hs1, Hs2.
    replace (retained_total (glob_data P p2))
      with (retained_total (glob_data P p1)
            + (retained_total (glob_data P p2)
               - retained_total (glob_data P p1)))%nat by lia.
    rewrite draws_add, fmap_app. by apply prefix_app_r. }
  split; [done|]. intros i s Hi.
  destruct Hprefix as [k ->]. by apply lookup_app_l_Some.
Qed.

Lemma X15_split_depends_on_rank_witness :
  HeartDiseaseRaw_init Demo.platform 0 float32 int64 false
    = Ok (Demo.raw, Demo.raw_rng)
  ∧ ∃ small g',
      HeartDiseaseRaw_init Demo.platform 0 float32 int64 true
        = Ok (small, g')
      ∧ len small ≤ len Demo.raw
      ∧ sets small `prefix_of` sets Demo.raw.
Proof.
  split; [apply demo_raw_init|].
  destruct (HeartDiseaseRaw_init Demo.platform 0 float32 int64 true)
    as [[small g']|e] eqn:Hsmall; [|vm_compute in Hsmall; discriminate].
  assert (len small ≤ len Demo.raw) as Hle.
  { vm_compute in Hsmall. injection Hsmall as <- _. by vm_compute. }
  exists small, g'. split; [reflexivity|]. split; [exact Hle|].
  exact (proj1 (X15_split_depends_on_rank Demo.platform 0 0
                  float32 int64 float32 int64 true false small Demo.raw
                  g' Demo.raw_rng Hsmall (demo_raw_init 0) Hle)).
Defined.

(** ** The features of tables of 14 columns *)





Section FeatureFacts.

Context (P : Platform).


End FeatureFacts.





